(** * Student Performance Dashboard: the classes and the page script of app.py

    The development embeds [Student], [GraduateStudent], [StudentManager],
    [PerformanceAnalyzer] and the script [main] of app.py, together with the
    parts of Python, numpy and pandas they call, and proves the properties
    the specification states about them.

    Conventions of the embedding.
    - A Python [int] is a [Z], without bound.  Text is a [string]: the bytes
      of its UTF-8 encoding, so that a character outside ASCII is a run of
      bytes above 127.  Where Python looks at such a character ([str.strip],
      [int]) the call is [Unmodelled], unless the answer does not depend on
      it.
    - A numpy float is a binary64 number: [Fin q] is the finite number of
      value [q] and [NaN] is not-a-number.  [F64.round] rounds a rational to
      the nearest binary64 number, ties to even.  [Np.mean] is embedded where
      numpy adds the marks without rounding (the absolute values of the marks
      add up to at most 2^53) and where the division overflows; between the
      two the call is [Unmodelled].
    - A call that can raise returns an [outcome].
    - The marks of a record are a sequence of integers, as the form makes
      them.  Where the script would keep another object as marks, the run is
      [Unmodelled].
    - [eval] is embedded on the text of a list of integers and on a list that
      is not closed; any other expression, which may do anything to the
      objects of the script, is [Unmodelled], and so is the page it leaves.
    - Drawing a widget returns; what Streamlit does with the data it is
      given is outside the model. *)

From Stdlib Require Import ZArith QArith Qcanon String Ascii List Lia Bool.
From Stdlib Require Import DecimalString DecimalZ DecimalNat.
From stdpp Require Import gmap strings list.

Local Open Scope string_scope.
Local Open Scope list_scope.
Local Open Scope Z_scope.

(** ** Python values *)

Inductive exn : Type :=
| ValueError
| SyntaxError
| OverflowError
| KeyError (labels : list string).

(** Result of a call: a value, an exception, or [Unmodelled] where the call
    leaves the part of Python, numpy and pandas that is embedded here. *)
Inductive outcome (A : Type) : Type :=
| Ok (a : A)
| Raise (e : exn)
| Unmodelled.
Arguments Ok {A} a.
Arguments Raise {A} e.
Arguments Unmodelled {A}.

#[global] Instance outcome_ret : MRet outcome := fun A a => Ok a.

#[global] Instance outcome_bind : MBind outcome := fun A B k c =>
  match c with
  | Ok a => k a
  | Raise e => Raise e
  | Unmodelled => Unmodelled
  end.

(** A list comprehension whose element expression can raise: elements are
    evaluated left to right and the first exception ends it. *)
Definition comprehension {A B} (f : A -> outcome B) (l : list A) : outcome (list B) :=
  mapM f l.

(** ** binary64 numbers *)

Module F64.

(** The integer nearest to [num / den], the even one of two that are as
    near; [den] is positive. *)
Definition nearest_even (num den : Z) : Z :=
  let q := num / den in
  let r := num mod den in
  if 2 * r <? den then q
  else if den <? 2 * r then q + 1
  else if Z.even q then q else q + 1.

(** [s / n] divided by [2^e], as a fraction of integers. *)
Definition scaled_num (s e : Z) : Z := s * 2 ^ Z.max 0 (- e).
Definition scaled_den (n e : Z) : Z := n * 2 ^ Z.max 0 e.

(** The exponent of the last binary place kept for the positive number
    [s / n]: the [e] with [2^52 <= (s / n) / 2^e < 2^53], and -1074 for the
    numbers below the normal range. *)
Definition last_place (s n : Z) : Z :=
  let e := Z.log2 s - Z.log2 n - 53 in
  let e := if 2 ^ 53 * scaled_den n e <=? scaled_num s e then e + 1 else e in
  Z.max e (- 1074).

(** [m * 2^e] as a rational. *)
Definition scale (m e : Z) : Q :=
  Qmake (m * 2 ^ Z.max 0 e) (Z.to_pos (2 ^ Z.max 0 (- e))).

(** The binary64 number nearest to the positive number [s / n]; a number
    that rounds to 2^1024 or above has none and is not to be passed. *)
Definition round_pos (s n : Z) : Q :=
  let e := last_place s n in
  scale (nearest_even (scaled_num s e) (scaled_den n e)) e.

Definition round (q : Q) : Qc :=
  match Qnum q with
  | 0 => Q2Qc 0
  | Zpos s => Q2Qc (round_pos (Zpos s) (Zpos (Qden q)))
  | Zneg s => Q2Qc (- round_pos (Zpos s) (Zpos (Qden q)))
  end.

End F64.

Inductive pyfloat : Type :=
| Fin (q : Qc)
| NaN.

(** [x >= k] for a float [x] and an integer literal [k]; every comparison
    with NaN is false. *)
Definition ge_int (x : pyfloat) (k : Z) : bool :=
  match x with
  | Fin q => Qle_bool (inject_Z k) q
  | NaN => false
  end.

(** The objects that occur as attributes and as table cells. *)
Inductive pyobj : Type :=
| PStr (s : string)
| PInt (z : Z)
| PNaN
| PList (l : list Z).

Module Py.

Definition is_digit (c : ascii) : bool :=
  (48 <=? nat_of_ascii c)%nat && (nat_of_ascii c <=? 57)%nat.

(** The ASCII characters for which [str.isspace] holds. *)
Definition is_space (c : ascii) : bool :=
  let n := nat_of_ascii c in
  ((9 <=? n)%nat && (n <=? 13)%nat) || ((28 <=? n)%nat && (n <=? 32)%nat).

(** [s.split(sep)] for a separator of one character: never empty. *)
Fixpoint split (sep : ascii) (s : string) : list string :=
  match s with
  | EmptyString => [EmptyString]
  | String c s' =>
      if Ascii.eqb c sep then EmptyString :: split sep s'
      else match split sep s' with
           | [] => [String c EmptyString]
           | t :: ts => String c t :: ts
           end
  end.

Fixpoint lstrip (s : string) : string :=
  match s with
  | EmptyString => EmptyString
  | String c s' => if is_space c then lstrip s' else s
  end.

Fixpoint rstrip (s : string) : string :=
  match s with
  | EmptyString => EmptyString
  | String c s' =>
      match rstrip s' with
      | EmptyString => if is_space c then EmptyString else String c EmptyString
      | r => String c r
      end
  end.

Definition is_ascii (c : ascii) : bool := (nat_of_ascii c <? 128)%nat.

Fixpoint all_chars (p : ascii -> bool) (s : string) : bool :=
  match s with
  | EmptyString => true
  | String c s' => p c && all_chars p s'
  end.

Definition first_char (s : string) : option ascii :=
  match s with
  | EmptyString => None
  | String c _ => Some c
  end.

Fixpoint last_char (s : string) : option ascii :=
  match s with
  | EmptyString => None
  | String c EmptyString => Some c
  | String _ s' => last_char s'
  end.

Definition ascii_end (c : option ascii) : bool :=
  match c with
  | Some c => is_ascii c
  | None => true
  end.

(** [s.strip()]: the white space at both ends removed.  Python also removes
    the white space outside ASCII; what is left after the ASCII white space
    is the result when it neither begins nor ends with a character outside
    ASCII. *)
Definition strip (s : string) : outcome string :=
  let t := rstrip (lstrip s) in
  if ascii_end (first_char t) && ascii_end (last_char t) then Ok t
  else Unmodelled.

Definition digit_value (c : ascii) : Z := Z.of_nat (nat_of_ascii c) - 48.

(** Digits with single underscores between them, as [int] accepts them;
    [after_digit] tells whether the previous character was a digit. *)
Fixpoint digits (acc : Z) (after_digit : bool) (s : string) : option Z :=
  match s with
  | EmptyString => if after_digit then Some acc else None
  | String c s' =>
      if is_digit c then digits (10 * acc + digit_value c) true s'
      else if Ascii.eqb c "_" && after_digit then digits acc false s'
      else None
  end.

(** The ASCII characters that the text of an integer can hold. *)
Definition int_char (c : ascii) : bool :=
  is_digit c || Ascii.eqb c "+" || Ascii.eqb c "-" || Ascii.eqb c "_" || is_space c.

(** The most digits [int] converts since Python 3.11. *)
Definition max_str_digits : nat := 4300.

(** [int(s)] in base ten: surrounding white space, an optional sign, digits.
    An ASCII character that is none of these is a ValueError whatever else
    the text holds.  Python also reads the digits and the white space
    outside ASCII, and from 3.11 on refuses more than 4300 digits: a text
    with a character outside ASCII, or longer than that, is not modelled. *)
Definition int (s : string) : outcome Z :=
  let unsigned t := match digits 0 false t with
                    | Some z => Ok z
                    | None => Raise ValueError
                    end in
  if negb (all_chars (fun c => negb (is_ascii c) || int_char c) s) then Raise ValueError
  else if negb (all_chars is_ascii s) then Unmodelled
  else if (max_str_digits <? String.length s)%nat then Unmodelled
  else match rstrip (lstrip s) with
       | String "+" t => unsigned t
       | String "-" t => z ← unsigned t; Ok (- z)
       | t => unsigned t
       end.

(** [str(z)] of an integer.  (From Python 3.11 on, [str] refuses an integer
    of more than 4300 digits; the integers printed here are marks that
    [np.mean] has averaged, far below that.) *)
Definition str_int (z : Z) : string := NilZero.string_of_int (Z.to_int z).

Fixpoint join (sep : string) (l : list string) : string :=
  match l with
  | [] => EmptyString
  | [t] => t
  | t :: l' => t +:+ sep +:+ join sep l'
  end.

(** [str(l)] of a list of integers, as in [[80, 90, 85]]. *)
Definition str_list (l : list Z) : string :=
  "[" +:+ join ", " (map str_int l) +:+ "]".

(** [str(x)] as pandas writes a cell: a missing value is written empty. *)
Definition str (x : pyobj) : string :=
  match x with
  | PStr s => s
  | PInt z => str_int z
  | PNaN => EmptyString
  | PList l => str_list l
  end.

(** The text of an integer exactly as [str] prints it, of at most 4300
    digits. *)
Definition int_literal (t : string) : option Z :=
  match NilZero.int_of_string t with
  | Some d =>
      if String.eqb (str_int (Z.of_int d)) t && (Z.abs (Z.of_int d) <? 10 ^ 4300)
      then Some (Z.of_int d) else None
  | None => None
  end.

(** Removes a final closing bracket. *)
Fixpoint unclose (s : string) : option string :=
  match s with
  | EmptyString => None
  | String c EmptyString => if Ascii.eqb c "]" then Some EmptyString else None
  | String c s' => option_map (String c) (unclose s')
  end.

Fixpoint literals (first : bool) (tokens : list string) : option (list Z) :=
  match tokens with
  | [] => Some []
  | t :: ts =>
      let t' := if first then Some t
                else match t with String " " r => Some r | _ => None end in
      match t' with
      | Some r =>
          match int_literal r, literals false ts with
          | Some z, Some zs => Some (z :: zs)
          | _, _ => None
          end
      | None => None
      end
  end.

(** A list display of integer literals in the form [str_list] prints. *)
Definition list_display (s : string) : option (list Z) :=
  match s with
  | String "[" rest =>
      match unclose rest with
      | Some EmptyString => Some []
      | Some inner => literals true (split "," inner)
      | None => None
      end
  | _ => None
  end.

(** An opening bracket followed only by digits, signs, commas and blanks:
    the bracket is never closed. *)
Definition unclosed (s : string) : bool :=
  match s with
  | String "[" rest =>
      all_chars (fun c => is_digit c || Ascii.eqb c "," || Ascii.eqb c " "
                          || Ascii.eqb c "-") rest
  | _ => false
  end.

(** [eval(s)] on the expressions embedded here: a list display of integers
    evaluates to the list, an unclosed bracket is a syntax error.  Any other
    expression is not modelled: it is evaluated among the local names of
    [main] and can do anything to the objects they name. *)
Definition eval (s : string) : outcome (list Z) :=
  match list_display s with
  | Some l => Ok l
  | None => if unclosed s then Raise SyntaxError else Unmodelled
  end.

End Py.

Module Np.

Definition sum (a : list Z) : Z := fold_right Z.add 0 a.

(** The sum of the absolute values. *)
Definition magnitude (a : list Z) : Z := fold_right (fun x acc => Z.abs x + acc) 0 a.

(** Integers that binary64 holds and adds without rounding, in whatever
    order numpy adds them: every partial sum stays within 2^53. *)
Definition exact (a : list Z) : bool := magnitude a <=? 2 ^ 53.

(** An integer that fits neither int64 nor uint64 makes the array one of
    Python objects, which numpy adds and divides as Python does. *)
Definition object_array (a : list Z) : bool := existsb (fun x => 2 ^ 64 <=? Z.abs x) a.

(** [np.mean(a)] of a list of integers: the entries are added as binary64
    numbers and the sum is divided by their number.
    - Of an empty list, NaN (numpy warns and returns nan, it does not
      raise).
    - Where the sum is exact, the quotient rounded to binary64.
    - Of an array of objects whose quotient is beyond the binary64 range,
      OverflowError.
    - Otherwise the sum is rounded on the way, in an order that depends on
      the length: not modelled. *)
Definition mean (a : list Z) : outcome pyfloat :=
  match a with
  | [] => Ok NaN
  | _ :: _ =>
      if exact a then Ok (Fin (F64.round (Qmake (sum a) (Pos.of_nat (length a)))))
      else if object_array a && (2 ^ 1025 * Z.of_nat (length a) <=? Z.abs (sum a))
      then Raise OverflowError
      else Unmodelled
  end.

(** [np.max(a)] and [np.min(a)]: a reduction without identity, so an empty
    array is a ValueError. *)
Definition max (a : list Z) : outcome Z :=
  match a with
  | [] => Raise ValueError
  | x :: a' => Ok (fold_right Z.max x a')
  end.

Definition min (a : list Z) : outcome Z :=
  match a with
  | [] => Raise ValueError
  | x :: a' => Ok (fold_right Z.min x a')
  end.

Fixpoint concatenate_cells (cells : list pyobj) : outcome (list Z) :=
  match cells with
  | [] => Ok []
  | PList l :: cells' => ls ← concatenate_cells cells'; Ok (l ++ ls)
  | _ :: _ => Raise ValueError
  end.

(** [np.concatenate(cells)] of an object array of lists: the lists joined
    end to end.  No array at all, or a cell that is a scalar (an array of
    dimension zero), is a ValueError.  The joined array is one of int64
    when every list has an entry and one of binary64 when some list is
    empty; it holds the integers themselves when none is beyond 2^53, and
    is not modelled otherwise. *)
Definition concatenate (cells : list pyobj) : outcome (list Z) :=
  match cells with
  | [] => Raise ValueError
  | _ :: _ =>
      a ← concatenate_cells cells;
      if forallb (fun x => Z.abs x <=? 2 ^ 53) a then Ok a else Unmodelled
  end.

End Np.

(** ** The classes *)

(** [Student] and its subclass [GraduateStudent]; the subclass only overrides
    [get_grade], so an object is the three attributes and its class. *)
Inductive klass : Type := Student_class | GraduateStudent_class.

Record Student : Type := mkStudent {
  class_of : klass;
  name : pyobj;
  roll : pyobj;
  _marks : list Z
}.

Definition get_marks (self : Student) : list Z := _marks self.

Definition Student_get_grade (self : Student) : outcome string :=
  avg ← Np.mean (_marks self);
  Ok (if ge_int avg 90 then "A"
      else if ge_int avg 75 then "B"
      else if ge_int avg 50 then "C"
      else "F").

Definition GraduateStudent_get_grade (self : Student) : outcome string :=
  avg ← Np.mean (_marks self);
  Ok (if ge_int avg 40 then "Pass" else "Fail").

(** Method resolution: the override of the object's class. *)
Definition get_grade (self : Student) : outcome string :=
  match class_of self with
  | Student_class => Student_get_grade self
  | GraduateStudent_class => GraduateStudent_get_grade self
  end.

(** ** pandas tables *)

Module Pd.

(** A table is its columns in order, each a label and the cells of that
    column; all columns of a table built below have the same length. *)
Definition DataFrame : Type := list (string * list pyobj).

(** [pd.DataFrame(columns=labels)]: the labelled columns, no row. *)
Definition with_columns (labels : list string) : DataFrame :=
  map (fun c => (c, [])) labels.

Definition columns (df : DataFrame) : list string := map fst df.

Definition nrows (df : DataFrame) : nat :=
  match df with
  | [] => 0
  | (_, cells) :: _ => length cells
  end.

(** [df.empty]: no column or no row. *)
Definition empty (df : DataFrame) : bool := Nat.eqb (nrows df) 0.

Fixpoint lookup_label {A} (c : string) (l : list (string * A)) : option A :=
  match l with
  | [] => None
  | (c', a) :: l' => if String.eqb c c' then Some a else lookup_label c l'
  end.

(** [df[c]] *)
Definition getitem (df : DataFrame) (c : string) : outcome (list pyobj) :=
  match lookup_label c df with
  | Some cells => Ok cells
  | None => Raise (KeyError [c])
  end.

(** A row, as [iterrows] yields it: the cell of each column under its label. *)
Definition row : Type := list (string * pyobj).

Definition row_at (df : DataFrame) (i : nat) : row :=
  map (fun col => (fst col, nth i (snd col) PNaN)) df.

Definition iterrows (df : DataFrame) : list row :=
  map (row_at df) (seq 0 (nrows df)).

(** [row[c]] *)
Definition row_getitem (r : row) (c : string) : outcome pyobj :=
  match lookup_label c r with
  | Some x => Ok x
  | None => Raise (KeyError [c])
  end.

(** The rows without the labels. *)
Definition rows (df : DataFrame) : list (list pyobj) :=
  map (map snd) (iterrows df).

(** A CSV file as its records, each the text of its fields, the header
    first.  Quoting is the writer's and the reader's business and undone by
    the reader, so it is not part of the model. *)
Definition csv : Type := list (list string).

(** [df.to_csv(index=False)] *)
Definition to_csv (df : DataFrame) : csv :=
  columns df :: map (map Py.str) (rows df).

(** *** Reading a CSV file

    [read_csv] guesses the type of each column: it tries integers, then
    floats, then truth values, and keeps the text otherwise.  The guesses
    embedded here are the ones that are certain: a missing-value marker is
    read as NaN; a column of integers, each written as [str] writes it and
    within 64 bits, is read as integers; a column with a field that is
    neither a number nor a truth value is read as text.  A number is made
    of digits, signs, a point and an exponent mark, with blanks around it,
    or is a spelling of infinity or nan: a field with any other character
    is none.  Every other column is [Unmodelled], and so is a column with
    the field None, which is a missing-value marker for recent versions of
    pandas only. *)

Definition na_values : list string :=
  [""; "#N/A"; "#N/A N/A"; "#NA"; "-1.#IND"; "-1.#QNAN"; "-NaN"; "-nan";
   "1.#IND"; "1.#QNAN"; "<NA>"; "N/A"; "NA"; "NULL"; "NaN"; "n/a";
   "nan"; "null"].

Definition is_na (s : string) : bool := existsb (String.eqb s) na_values.

Definition is_None (s : string) : bool := String.eqb s "None".

Definition upper (c : ascii) : ascii :=
  let n := nat_of_ascii c in
  if ((97 <=? n)%nat && (n <=? 122)%nat)%bool then ascii_of_nat (n - 32) else c.

Fixpoint uppercase (s : string) : string :=
  match s with
  | EmptyString => EmptyString
  | String c s' => String (upper c) (uppercase s')
  end.

Definition is_truth_value (s : string) : bool :=
  String.eqb (uppercase s) "TRUE" || String.eqb (uppercase s) "FALSE".

(** The characters of a decimal number and of the blanks around it. *)
Definition number_char (c : ascii) : bool :=
  Py.is_digit c || existsb (Ascii.eqb c) ["+"; "-"; "."; "e"; "E"]%char
  || Py.is_space c.

Fixpoint letters (s : string) : string :=
  match s with
  | EmptyString => EmptyString
  | String c s' =>
      if Py.is_space c || Ascii.eqb c "+" || Ascii.eqb c "-" then letters s'
      else String (upper c) (letters s')
  end.

(** The spellings of infinity and nan, in either case, signs and blanks
    set aside. *)
Definition is_special_number (s : string) : bool :=
  existsb (String.eqb (letters s)) ["INF"; "INFINITY"; "NAN"].

Definition could_be_number (s : string) : bool :=
  Py.all_chars number_char s || is_special_number s.

Definition surely_text (s : string) : bool :=
  negb (is_na s) && negb (is_None s) && negb (is_truth_value s)
  && negb (could_be_number s).

Definition int64_literal (s : string) : option Z :=
  match Py.int_literal s with
  | Some z => if (- 2 ^ 63 <=? z) && (z <? 2 ^ 63) then Some z else None
  | None => None
  end.

Definition read_column (fields : list string) : outcome (list pyobj) :=
  if existsb is_None fields then Unmodelled
  else if forallb is_na fields then Ok (map (fun _ => PNaN) fields)
  else match mapM int64_literal fields with
       | Some zs => Ok (map PInt zs)
       | None =>
           if existsb surely_text fields
           then Ok (map (fun s => if is_na s then PNaN else PStr s) fields)
           else Unmodelled
       end.

(** The fields of column [j]. *)
Definition fields_at (records : list (list string)) (j : nat) : list string :=
  map (fun r => nth j r EmptyString) records.

Definition well_formed (header : list string) (records : list (list string)) : bool :=
  bool_decide (NoDup header)
  && forallb (fun c => negb (String.eqb c EmptyString)) header
  && forallb (fun r => Nat.eqb (length r) (length header)) records.

(** [pd.read_csv(file)] for a file with a header of distinct labels and
    records of as many fields as the header has. *)
Definition read_csv (file : csv) : outcome DataFrame :=
  match file with
  | [] => Unmodelled
  | header :: records =>
      if well_formed header records
      then mapM (fun jc => cells ← read_column (fields_at records (fst jc));
                           Ok (snd jc, cells))
                (combine (seq 0 (length header)) header)
      else Unmodelled
  end.


(** *** Reshaping for the charts *)

(** [pd.Series(x)] of a cell: the entries of a list, or the one scalar. *)
Definition to_series (x : pyobj) : list pyobj :=
  match x with
  | PList l => map PInt l
  | _ => [x]
  end.

Definition width (col : list pyobj) : nat :=
  fold_right Nat.max 0%nat (map (fun x => length (to_series x)) col).

Definition holds_exactly (x : pyobj) : bool :=
  match x with
  | PList l => forallb (fun z => Z.abs z <=? 2 ^ 53) l
  | PInt z => Z.abs z <=? 2 ^ 53
  | _ => true
  end.

(** [col.apply(pd.Series)]: one column per position up to the longest
    series, labelled 0, 1, ...; a shorter series is padded with NaN.  A
    cell [PInt z] of these columns stands for the number [z], which pandas
    holds as int64 in a column without NaN and as binary64 in a padded one:
    the padded column holds the integers themselves when none is beyond
    2^53, and the table is not modelled otherwise. *)
Definition apply_Series (col : list pyobj) : outcome (list (nat * list pyobj)) :=
  if forallb holds_exactly col
  then Ok (map (fun j => (j, map (fun x => nth j (to_series x) PNaN) col))
               (seq 0 (width col)))
  else Unmodelled.

(** [.rename(columns=f)] *)
Definition rename (f : nat -> string) (t : list (nat * list pyobj)) : DataFrame :=
  map (fun c => (f (fst c), snd c)) t.

(** [df.join(other)] of two tables with the same index and no label in
    common. *)
Definition join (df other : DataFrame) : DataFrame := df ++ other.

Definition has_label (df : DataFrame) (c : string) : bool :=
  existsb (String.eqb c) (columns df).

(** [df.drop(columns=c)] *)
Definition drop (df : DataFrame) (c : string) : outcome DataFrame :=
  if has_label df c
  then Ok (List.filter (fun col => negb (String.eqb c (fst col))) df)
  else Raise (KeyError [c]).

(** [df.set_index(c)]: the cells of [c] become the index. *)
Definition set_index (df : DataFrame) (c : string) : outcome (list pyobj * DataFrame) :=
  index ← getitem df c;
  rest ← drop df c;
  Ok (index, rest).

(** [df[labels]]: the labels that are not columns are a KeyError. *)
Definition select (df : DataFrame) (labels : list string) : outcome DataFrame :=
  match List.filter (fun c => negb (has_label df c)) labels with
  | [] => mapM (fun c => cells ← getitem df c; Ok (c, cells)) labels
  | missing => Raise (KeyError missing)
  end.

(** The integers of a column of integers and NaN. *)
Fixpoint present (cells : list pyobj) : outcome (list Z) :=
  match cells with
  | [] => Ok []
  | PInt z :: cells' => zs ← present cells'; Ok (z :: zs)
  | PNaN :: cells' => present cells'
  | _ :: _ => Unmodelled
  end.

(** [df.mean()]: the mean of each column over its cells that are not NaN. *)
Definition mean (df : DataFrame) : outcome (list (string * pyfloat)) :=
  mapM (fun col => zs ← present (snd col); avg ← Np.mean zs; Ok (fst col, avg)) df.

(** [col.value_counts()] of a column of labels: how often each occurs,
    NaN not counted.  The order of the counts is not modelled. *)
Fixpoint value_counts (cells : list pyobj) : outcome (gmap string nat) :=
  match cells with
  | [] => Ok ∅
  | PStr s :: cells' =>
      counts ← value_counts cells';
      Ok (<[s := S (default 0%nat (counts !! s))]> counts)
  | PNaN :: cells' => value_counts cells'
  | _ :: _ => Unmodelled
  end.

End Pd.

(** ** The record store *)

Record StudentManager : Type := mkStudentManager {
  students : list Student
}.

(** [StudentManager()] *)
Definition new_StudentManager : StudentManager := mkStudentManager [].

Definition add_student (self : StudentManager) (student : Student) : StudentManager :=
  mkStudentManager (students self ++ [student]).

(** The four columns are built one after the other; a grade that cannot be
    computed ends the call with its exception. *)
Definition to_dataframe (self : StudentManager) : outcome Pd.DataFrame :=
  match students self with
  | [] => Ok (Pd.with_columns ["Name"; "Roll"; "Marks"; "Grade"])
  | _ :: _ =>
      let names := map name (students self) in
      let rolls := map roll (students self) in
      let marks := map (fun s => PList (get_marks s)) (students self) in
      grades ← comprehension get_grade (students self);
      Ok [("Name", names); ("Roll", rolls); ("Marks", marks);
          ("Grade", map PStr grades)]
  end.

(** ** The analyzer *)

Inductive number : Type :=
| Float (x : pyfloat)
| Int (z : Z).

(** The abstract base class: an analyzer is anything with [analyze]. *)
Class Analyzer (A : Type) : Type :=
  analyze : A -> Pd.DataFrame -> outcome (gmap string number).

Inductive PerformanceAnalyzer : Type := mkPerformanceAnalyzer.

#[global] Instance PerformanceAnalyzer_analyze : Analyzer PerformanceAnalyzer :=
  fun self df =>
    if Pd.empty df then Ok ∅
    else
      let stats : gmap string number := ∅ in
      marks ← Pd.getitem df "Marks";
      all_marks ← Np.concatenate marks;
      average ← Np.mean all_marks;
      let stats := <["Average Marks" := Float average]> stats in
      highest ← Np.max all_marks;
      let stats := <["Highest Marks" := Int highest]> stats in
      lowest ← Np.min all_marks;
      let stats := <["Lowest Marks" := Int lowest]> stats in
      Ok stats.

(** ** The page *)

(** What a run of the script puts on the page, in the order of the calls.
    Titles, headers, the input widgets and the tab bar are always drawn and
    carry no data; they are left out. *)
Inductive widget : Type :=
| sidebar_success (body : string)
| sidebar_error (body : string)
| write (body : string)
| info (body : string)
| success (body : string)
| dataframe (df : Pd.DataFrame)
| json (stats : gmap string number)
| bar_chart (index : list pyobj) (df : Pd.DataFrame)
| pyplot_pie (counts : gmap string nat)
| line_chart (data : list (string * pyfloat))
| download_button (label : string) (data : Pd.csv) (file_name mime : string).

(** The state a run works on: the manager kept in the session and the page
    drawn so far.  An exception leaves both as they are at that point; of
    a run that is [Unmodelled] the page says nothing. *)
Record page : Type := mkPage {
  manager : StudentManager;
  drawn : list widget
}.

Definition script (A : Type) : Type := page -> outcome A * page.

#[global] Instance script_ret : MRet script := fun A a p => (Ok a, p).

#[global] Instance script_bind : MBind script := fun A B k c p =>
  match c p with
  | (Ok a, p') => k a p'
  | (Raise e, p') => (Raise e, p')
  | (Unmodelled, p') => (Unmodelled, p')
  end.

Definition st (w : widget) : script unit :=
  fun p => (Ok tt, mkPage (manager p) (drawn p ++ [w])).

Definition call {A} (c : outcome A) : script A := fun p => (c, p).

Definition the_manager : script StudentManager := fun p => (Ok (manager p), p).

(** [manager.add_student(student)]: the manager of the session is changed
    in place. *)
Definition manager_add_student (student : Student) : script unit :=
  fun p => (Ok tt, mkPage (add_student (manager p) student) (drawn p)).

(** [try: body except: handler], with a bare except. *)
Definition try_except (body handler : script unit) : script unit :=
  fun p =>
    match body p with
    | (Raise _, p') => handler p'
    | r => r
    end.

(** [for x in l: body x] *)
Fixpoint for_each {A} (l : list A) (body : A -> script unit) : script unit :=
  match l with
  | [] => mret tt
  | x :: l' => body x ≫= fun _ => for_each l' body
  end.

Inductive student_type : Type := Normal | Graduate.

Definition type_label (t : student_type) : string :=
  match t with
  | Normal => "Normal"
  | Graduate => "Graduate"
  end.

(** What the user has entered when the script runs. *)
Record inputs : Type := mkInputs {
  name_input : string;
  roll_input : string;
  marks_input : string;
  st_type : student_type;
  submit : bool;
  uploaded : option Pd.csv
}.

(** The sidebar form. *)
Definition student_form (i : inputs) : script unit :=
  if submit i then
    try_except
      (marks_list ← call (comprehension (fun m => Py.strip m ≫= Py.int)
                                        (Py.split "," (marks_input i)));
       let student :=
         match st_type i with
         | Graduate => mkStudent GraduateStudent_class
                         (PStr (name_input i)) (PStr (roll_input i)) marks_list
         | Normal => mkStudent Student_class
                       (PStr (name_input i)) (PStr (roll_input i)) marks_list
         end in
       manager_add_student student;;
       st (sidebar_success ("✅ Added " +:+ name_input i +:+ " ("
                            +:+ type_label (st_type i) +:+ ") successfully!")))
      (st (sidebar_error "⚠️ Enter valid marks (e.g., 80,90,85)"))
  else mret tt.

Definition records_tab : script unit :=
  m ← the_manager;
  df ← call (to_dataframe m);
  st (write "### 📋 Student Records");;
  if Pd.empty df then st (info "No records available.")
  else st (dataframe df).

Definition analysis_tab (analyzer : PerformanceAnalyzer) : script unit :=
  m ← the_manager;
  df ← call (to_dataframe m);
  if negb (Pd.empty df) then
    stats ← call (analyze analyzer df);
    st (write "### 📊 Performance Analysis");;
    st (json stats)
  else st (info "No students available for analysis.").

Definition subject_label (x : nat) : string :=
  "Sub" +:+ NilEmpty.string_of_uint (Nat.to_uint (x + 1)).

Definition expand (df : Pd.DataFrame) : outcome Pd.DataFrame :=
  marks ← Pd.getitem df "Marks";
  subjects ← Pd.apply_Series marks;
  let expanded_df := Pd.join df (Pd.rename subject_label subjects) in
  Pd.drop expanded_df "Marks".

Definition visualizations_tab : script unit :=
  m ← the_manager;
  df ← call (to_dataframe m);
  if negb (Pd.empty df) then
    expanded_df ← call (expand df);
    st (write "#### 📊 Bar Chart - Subject Marks");;
    indexed ← call (Pd.set_index expanded_df "Name");
    st (bar_chart (fst indexed) (snd indexed));;
    st (write "#### 🥧 Pie Chart - Grade Distribution");;
    grades ← call (Pd.getitem df "Grade");
    grade_counts ← call (Pd.value_counts grades);
    st (pyplot_pie grade_counts);;
    st (write "#### 📈 Line Chart - Average Trend");;
    subjects ← call (Pd.select expanded_df ["Sub1"; "Sub2"; "Sub3"]);
    means ← call (Pd.mean subjects);
    st (line_chart means)
  else st (info "No students available for visualization.").

(** One turn of the upload loop.  A Marks cell that is text is evaluated; a
    cell that is not text would become the marks as it is, a scalar, which
    lies outside the integer sequences that marks are here. *)
Definition upload_row (r : Pd.row) : script unit :=
  cell ← call (Pd.row_getitem r "Marks");
  marks_list ← call (match cell with
                     | PStr s => Py.eval s
                     | _ => Unmodelled
                     end);
  n ← call (Pd.row_getitem r "Name");
  ro ← call (Pd.row_getitem r "Roll");
  manager_add_student (mkStudent Student_class n ro marks_list).

Definition save_load_tab (i : inputs) : script unit :=
  m ← the_manager;
  df ← call (to_dataframe m);
  (if negb (Pd.empty df) then
     st (download_button "💾 Download Records as CSV" (Pd.to_csv df)
                         "student_records.csv" "text/csv")
   else mret tt);;
  match uploaded i with
  | Some file =>
      data ← call (Pd.read_csv file);
      for_each (Pd.iterrows data) upload_row;;
      st (success "✅ CSV loaded successfully!")
  | None => mret tt
  end.

(** A run of the script: [session] is the manager the session holds from
    earlier runs, if any. *)
Definition main (session : option StudentManager) (i : inputs) : outcome unit * page :=
  let start := match session with
               | None => new_StudentManager
               | Some m => m
               end in
  let analyzer := mkPerformanceAnalyzer in
  (student_form i;;
   records_tab;;
   analysis_tab analyzer;;
   visualizations_tab;;
   save_load_tab i) (mkPage start []).


(** ** Notions used in the statements *)

(** The float of value [z], for an integer that binary64 holds. *)
Definition float_of_Z (z : Z) : pyfloat := Fin (Q2Qc (inject_Z z)).

(** Marks whose mean numpy computes as the rounded quotient of their sum
    by their number, on the side of each threshold where the quotient is:
    their absolute values add up to at most 2^53 and they are fewer than
    2^46. *)
Definition moderate (m : list Z) : Prop :=
  Np.magnitude m <= 2 ^ 53 /\ Z.of_nat (length m) < 2 ^ 46.

(** The value of the mean of moderate marks. *)
Definition quotient (m : list Z) : pyfloat :=
  Fin (F64.round (Qmake (Np.sum m) (Pos.of_nat (length m)))).

(** The label a policy gives by the sum and the number of the marks: the
    mean is at least [k] when the sum is at least [k] times the number. *)
Definition label_of_sum (c : klass) (m : list Z) : string :=
  let total := Np.sum m in
  let count := Z.of_nat (length m) in
  match m, c with
  | [], Student_class => "F"
  | [], GraduateStudent_class => "Fail"
  | _ :: _, Student_class =>
      if 90 * count <=? total then "A"
      else if 75 * count <=? total then "B"
      else if 50 * count <=? total then "C"
      else "F"
  | _ :: _, GraduateStudent_class =>
      if 40 * count <=? total then "Pass" else "Fail"
  end.

(** A store whose records all have moderate marks. *)
Definition gradable (ss : list Student) : Prop :=
  Forall (fun s => moderate (_marks s)) ss.

(** The table whose columns are computed, each by its function, from the
    items of a list. *)
Definition tabulate {A} (specs : list (string * (A -> pyobj))) (l : list A) : Pd.DataFrame :=
  map (fun cf => (fst cf, map (snd cf) l)) specs.

Definition table_columns : list (string * (Student -> pyobj)) :=
  [("Name", name); ("Roll", roll);
   ("Marks", fun s => PList (get_marks s));
   ("Grade", fun s => PStr (label_of_sum (class_of s) (_marks s)))].


(** The table of a gradable store. *)
Definition table (ss : list Student) : Pd.DataFrame :=
  match ss with
  | [] => Pd.with_columns ["Name"; "Roll"; "Marks"; "Grade"]
  | _ :: _ => tabulate table_columns ss
  end.


(** The row [r] of an uploaded table is imported as the record [s]: its
    Marks cell is text that evaluates to the marks of [s], its Name and Roll
    cells are the name and roll of [s], and [s] is a plain [Student]. *)
Definition imports (r : Pd.row) (s : Student) : Prop :=
  (exists text, Pd.row_getitem r "Marks" = Ok (PStr text) /\
                Py.eval text = Ok (_marks s)) /\
  Pd.row_getitem r "Name" = Ok (name s) /\
  Pd.row_getitem r "Roll" = Ok (roll s) /\
  class_of s = Student_class.

(** The row [r] has a Marks cell whose text [eval] rejects with [e]. *)
Definition malformed (r : Pd.row) (e : exn) : Prop :=
  exists text, Pd.row_getitem r "Marks" = Ok (PStr text) /\
               Py.eval text = Raise e.

(** What the save/load tab draws of the table [df] before it looks at the
    upload. *)
Definition export_widgets (df : Pd.DataFrame) : list widget :=
  if Pd.empty df then []
  else [download_button "💾 Download Records as CSV"
          (Pd.to_csv df) "student_records.csv" "text/csv"].

(** The text has no comma. *)
Definition no_comma (s : string) : bool :=
  Py.all_chars (fun c => negb (Ascii.eqb c ",")) s.



(** ** Notions used in the further properties *)

(** The labels of a policy from worst to best: F, C, B, A and Fail, Pass. *)
Definition rank (grade : string) : nat :=
  if String.eqb grade "A" then 3
  else if String.eqb grade "B" then 2
  else if String.eqb grade "C" then 1
  else if String.eqb grade "Pass" then 1
  else 0.

(** A script that leaves the store as it finds it. *)
Definition read_only {A} (c : script A) : Prop :=
  forall p, manager (snd (c p)) = manager p.

(** The class the form gives a record of the chosen student type. *)
Definition class_for (t : student_type) : klass :=
  match t with
  | Graduate => GraduateStudent_class
  | Normal => Student_class
  end.

(** The message of the form after it has added a record. *)
Definition added_message (i : inputs) : string :=
  "✅ Added " +:+ name_input i +:+ " (" +:+ type_label (st_type i)
  +:+ ") successfully!".

(** The marks the form reads from the text entered. *)
Definition parsed_marks (i : inputs) : outcome (list Z) :=
  comprehension (fun m => Py.strip m ≫= Py.int) (Py.split "," (marks_input i)).

(** The page [after] keeps what [before] has: its records are the first
    records of [after], in the same order, and so are its widgets. *)
Definition keeps (before after : page) : Prop :=
  students (manager before) `prefix_of` students (manager after) /\
  drawn before `prefix_of` drawn after.

(** A script that only ever adds to the page it is run on, in the runs that
    are modelled. *)
Definition append_only {A} (c : script A) : Prop :=
  forall p, fst (c p) <> Unmodelled -> keeps p (snd (c p)).

(** The token [t] is the numeral of [z] as [str] prints it, of at most 4300
    characters, with any white space before and after it. *)
Definition numeral_of (t : string) (z : Z) : Prop :=
  exists before after,
    Py.all_chars Py.is_space before = true /\
    Py.all_chars Py.is_space after = true /\
    t = before +:+ Py.str_int z +:+ after /\
    (String.length (Py.str_int z) <= Py.max_str_digits)%nat.

(** The characters of a printed integer: digits and the minus sign. *)
Definition numeral_char (c : ascii) : bool := Py.is_digit c || Ascii.eqb c "-".

(** The cell of the record [s] in the column of subject [j] (counted from
    0): its mark at that position, NaN when it has none. *)
Definition subject_cell (j : nat) (s : Student) : pyobj :=
  match _marks s !! j with
  | Some z => PInt z
  | None => PNaN
  end.

(** The marks the records have at position [j]. *)
Definition subject_marks (j : nat) (ss : list Student) : list Z :=
  omap (fun s => _marks s !! j) ss.

(** The length of the longest marks sequence. *)
Definition longest (ss : list Student) : nat :=
  fold_right Nat.max 0%nat (map (fun s => length (_marks s)) ss).

Definition grade_cell (s : Student) : pyobj :=
  PStr (label_of_sum (class_of s) (_marks s)).

(** The table with one column per subject in place of the Marks column. *)
Definition expanded_table (ss : list Student) : Pd.DataFrame :=
  [("Name", map name ss); ("Roll", map roll ss); ("Grade", map grade_cell ss)]
  ++ map (fun j => (subject_label j, map (subject_cell j) ss))
         (seq 0 (longest ss)).

(** The table under the bar chart: the expanded table without the names. *)
Definition bar_table (ss : list Student) : Pd.DataFrame :=
  [("Roll", map roll ss); ("Grade", map grade_cell ss)]
  ++ map (fun j => (subject_label j, map (subject_cell j) ss))
         (seq 0 (longest ss)).

(** What the visualization tab draws before it selects the three subjects. *)
Definition charts_drawn (ss : list Student) (counts : gmap string nat) : list widget :=
  [write "#### 📊 Bar Chart - Subject Marks";
   bar_chart (map name ss) (bar_table ss);
   write "#### 🥧 Pie Chart - Grade Distribution";
   pyplot_pie counts;
   write "#### 📈 Line Chart - Average Trend"].


(** * Properties *)

(** ** Rounding to binary64 *)

Lemma nearest_even_lower (num den : Z) :
  0 < den -> num / den <= F64.nearest_even num den.
Proof.
  intros Hd. unfold F64.nearest_even.
  destruct (2 * (num mod den) <? den); [lia |].
  destruct (den <? 2 * (num mod den)); [lia |].
  destruct (Z.even (num / den)); lia.
Qed.

Lemma nearest_even_upper (num den : Z) :
  0 < den -> 2 * (F64.nearest_even num den * den) <= 2 * num + den.
Proof.
  intros Hd. unfold F64.nearest_even.
  pose proof (Z.div_mod num den ltac:(lia)) as E.
  pose proof (Z.mod_pos_bound num den Hd) as B.
  destruct (Z.ltb_spec (2 * (num mod den)) den); [nia |].
  destruct (Z.ltb_spec den (2 * (num mod den))); [nia |].
  destruct (Z.even (num / den)); nia.
Qed.

Lemma nearest_even_nonneg (num den : Z) :
  0 <= num -> 0 < den -> 0 <= F64.nearest_even num den.
Proof.
  intros Hn Hd. pose proof (nearest_even_lower num den Hd).
  pose proof (Z.div_pos num den Hn Hd). lia.
Qed.

(** The last place of a quotient below 128 of fewer than 2^46 parts. *)
Lemma last_place_small (s n : Z) :
  0 < s -> 0 < n < 2 ^ 46 -> s < 128 * n ->
  - 99 <= F64.last_place s n <= - 45.
Proof.
  intros Hs Hn Hsn. unfold F64.last_place.
  pose proof (Z.log2_spec s Hs) as [A1 A2].
  pose proof (Z.log2_spec n ltac:(lia)) as [B1 B2].
  pose proof (Z.log2_nonneg s) as A0. pose proof (Z.log2_nonneg n) as B0.
  assert (Z.log2 n < 46) as B3.
  { apply Z.log2_lt_pow2; lia. }
  assert (Z.log2 s < Z.log2 n + 8) as A3.
  { apply Z.log2_lt_pow2; [lia |].
    replace (Z.log2 n + 8) with (7 + Z.succ (Z.log2 n)) by lia.
    rewrite Z.pow_add_r by lia. change (2 ^ 7) with 128. lia. }
  destruct (_ <=? _); lia.
Qed.

Lemma round_pos_below (s n k : Z) :
  0 < s -> 0 < n < 2 ^ 46 -> 0 < k <= 128 -> s < k * n ->
  (F64.round_pos s n < inject_Z k)%Q.
Proof.
  intros Hs Hn Hk Hlt.
  pose proof (last_place_small s n Hs Hn ltac:(nia)) as He.
  unfold F64.round_pos. set (e := F64.last_place s n) in *.
  unfold F64.scaled_num, F64.scaled_den, F64.scale.
  rewrite (Z.max_r 0 (- e)), (Z.max_l 0 e) by lia.
  change (2 ^ 0) with 1. rewrite !Z.mul_1_r.
  set (P := 2 ^ (- e)).
  assert (2 ^ 45 <= P) as HP by (apply Z.pow_le_mono_r; lia).
  assert (0 < 2 ^ 45) as H45 by reflexivity.
  pose proof (nearest_even_upper (s * P) n ltac:(lia)) as Hu.
  unfold Qlt. cbn [Qnum Qden inject_Z].
  rewrite Z2Pos.id by lia. rewrite Z.mul_1_r.
  assert (2 ^ 46 = 2 * 2 ^ 45) as E46 by reflexivity.
  nia.
Qed.

Lemma round_pos_above (s n k : Z) :
  0 < s -> 0 < n -> 0 < k <= 128 -> k * n <= s ->
  (inject_Z k <= F64.round_pos s n)%Q.
Proof.
  intros Hs Hn Hk Hle.
  unfold F64.round_pos. set (e := F64.last_place s n).
  destruct (Z.le_gt_cases e 0) as [He | He].
  - unfold F64.scaled_num, F64.scaled_den, F64.scale.
    rewrite (Z.max_r 0 (- e)), (Z.max_l 0 e) by lia.
    change (2 ^ 0) with 1. rewrite !Z.mul_1_r.
    set (P := 2 ^ (- e)).
    assert (0 < P) as HP by (apply Z.pow_pos_nonneg; lia).
    pose proof (nearest_even_lower (s * P) n Hn) as Hl.
    assert (k * P <= s * P / n) as Hd by (apply Z.div_le_lower_bound; nia).
    unfold Qle. cbn [Qnum Qden inject_Z].
    rewrite Z2Pos.id by lia. lia.
  - assert (2 ^ 52 * (n * 2 ^ e) <= s) as Hb.
    { subst e. unfold F64.last_place in *.
      pose proof (Z.log2_spec s Hs) as [A1 A2].
      pose proof (Z.log2_spec n Hn) as [B1 B2].
      pose proof (Z.log2_nonneg n) as B0.
      set (e0 := Z.log2 s - Z.log2 n - 53) in *.
      destruct (Z.leb_spec (2 ^ 53 * F64.scaled_den n e0) (F64.scaled_num s e0)) as [Hc | Hc].
      + rewrite Z.max_l in He |- * by lia.
        unfold F64.scaled_num, F64.scaled_den in Hc.
        rewrite (Z.max_l 0 (- e0)), (Z.max_r 0 e0) in Hc by lia.
        change (2 ^ 0) with 1 in Hc.
        replace (e0 + 1) with (Z.succ e0) by lia.
        rewrite Z.pow_succ_r by lia.
        change (2 ^ 53) with (2 * 2 ^ 52) in Hc. nia.
      + rewrite Z.max_l in He |- * by lia.
        assert (n * 2 ^ e0 * 2 ^ 52 < 2 ^ Z.log2 s); [| nia].
        replace (Z.log2 s) with (Z.succ (Z.log2 n) + e0 + 52) by lia.
        rewrite !Z.pow_add_r by lia.
        assert (0 < 2 ^ e0) by (apply Z.pow_pos_nonneg; lia).
        assert (0 < 2 ^ 52) by reflexivity.
        apply Z.mul_lt_mono_pos_r; [lia |].
        apply Z.mul_lt_mono_pos_r; lia. }
    unfold F64.scaled_num, F64.scaled_den, F64.scale.
    rewrite (Z.max_l 0 (- e)), (Z.max_r 0 e) by lia.
    change (2 ^ 0) with 1. rewrite !Z.mul_1_r.
    set (D := n * 2 ^ e) in *.
    assert (0 < 2 ^ e) as HP by (apply Z.pow_pos_nonneg; lia).
    assert (0 < D) as HD by (subst D; nia).
    pose proof (nearest_even_lower s D HD) as Hl.
    assert (2 ^ 52 <= s / D) as Hd by (apply Z.div_le_lower_bound; lia).
    unfold Qle. cbn [Qnum Qden inject_Z].
    assert (2 ^ 52 = 4503599627370496) as E52 by reflexivity.
    nia.
Qed.

Lemma round_pos_nonneg (s n : Z) : 0 < s -> 0 < n -> (0 <= F64.round_pos s n)%Q.
Proof.
  intros Hs Hn. unfold F64.round_pos, F64.scale, Qle. cbn [Qnum Qden].
  rewrite Z.mul_1_r, Z.mul_0_l.
  apply Z.mul_nonneg_nonneg; [| apply Z.pow_nonneg; lia].
  apply nearest_even_nonneg.
  - unfold F64.scaled_num. apply Z.mul_nonneg_nonneg; [lia | apply Z.pow_nonneg; lia].
  - unfold F64.scaled_den. apply Z.mul_pos_pos; [lia | apply Z.pow_pos_nonneg; lia].
Qed.

Lemma Qle_bool_Q2Qc (k : Z) (q : Q) :
  Qle_bool (inject_Z k) (Q2Qc q) = Qle_bool (inject_Z k) q.
Proof.
  cbn [Q2Qc this]. destruct (Qle_bool (inject_Z k) q) eqn:E.
  - apply Qle_bool_iff. rewrite Qred_correct. apply Qle_bool_iff, E.
  - destruct (Qle_bool (inject_Z k) (Qred q)) eqn:E'; [| reflexivity].
    apply Qle_bool_iff in E'. rewrite Qred_correct in E'.
    apply Qle_bool_iff in E'. congruence.
Qed.

(** A rounded quotient is on the same side of an integer threshold as the
    quotient itself. *)
Lemma ge_int_round (s n k : Z) :
  0 < n < 2 ^ 46 -> 0 < k <= 128 ->
  ge_int (Fin (F64.round (Qmake s (Z.to_pos n)))) k = (k * n <=? s).
Proof.
  intros Hn Hk. unfold ge_int, F64.round. cbn [Qnum Qden].
  rewrite Z2Pos.id by lia.
  destruct s as [| s | s]; rewrite Qle_bool_Q2Qc.
  - destruct (Z.leb_spec (k * n) 0); [nia |].
    destruct (Qle_bool (inject_Z k) 0) eqn:E; [| reflexivity].
    apply Qle_bool_iff in E. unfold Qle in E. cbn in E. lia.
  - destruct (Z.leb_spec (k * n) (Z.pos s)) as [H | H].
    + apply Qle_bool_iff, round_pos_above; lia.
    + pose proof (round_pos_below (Z.pos s) n k ltac:(lia) Hn Hk H) as Hlt.
      destruct (Qle_bool _ _) eqn:E; [| reflexivity].
      apply Qle_bool_iff in E. exfalso. apply (Qlt_not_le _ _ Hlt E).
  - destruct (Z.leb_spec (k * n) (Z.neg s)); [nia |].
    pose proof (round_pos_nonneg (Z.pos s) n ltac:(lia) ltac:(lia)) as H0.
    destruct (Qle_bool _ _) eqn:E; [| reflexivity].
    apply Qle_bool_iff in E. exfalso.
    assert (inject_Z k <= 0)%Q as Hk0.
    { eapply Qle_trans; [exact E |].
      apply (Qopp_le_compat 0 _) in H0. exact H0. }
    unfold Qle in Hk0. cbn in Hk0. lia.
Qed.

(** The rounding at work: one third and two thirds round to the nearest
    multiples of 2^-54 and 2^-53, 2^53 + 1 lies half way between two
    binary64 numbers and rounds to the even one, 2^53 + 3 rounds up, and
    an integer below 2^53 is kept. *)
Lemma round_examples :
  F64.round (1 # 3) = Q2Qc (6004799503160661 # 18014398509481984) /\
  F64.round (2 # 3) = Q2Qc (6004799503160661 # 9007199254740992) /\
  F64.round (inject_Z (2 ^ 53 + 1)) = Q2Qc (inject_Z (2 ^ 53)) /\
  F64.round (inject_Z (2 ^ 53 + 3)) = Q2Qc (inject_Z (2 ^ 53 + 4)) /\
  F64.round (inject_Z (- (2 ^ 53 + 3))) = Q2Qc (inject_Z (- (2 ^ 53 + 4))) /\
  F64.round (inject_Z 85) = Q2Qc (inject_Z 85) /\
  F64.round (1 # 10) = Q2Qc (3602879701896397 # 36028797018963968).
Proof. repeat split; apply Qc_is_canon; vm_compute; reflexivity. Qed.

(** ** Means and thresholds *)

Lemma length_pos_Z {A} (x : A) (l : list A) : 0 < Z.of_nat (length (x :: l)).
Proof. cbn [length]. lia. Qed.

Lemma mean_moderate (m : list Z) :
  m <> [] -> moderate m ->
  Np.mean m = Ok (quotient m).
Proof.
  intros Hm [Hs _]. destruct m as [| x m]; [congruence |].
  unfold Np.mean, Np.exact. destruct (Z.leb_spec (Np.magnitude (x :: m)) (2 ^ 53)); [reflexivity | lia].
Qed.

(** Comparing the mean with an integer threshold is comparing the sum with
    the threshold times the count. *)
Lemma ge_int_quotient (k : Z) (m : list Z) :
  m <> [] -> moderate m -> 0 < k <= 128 ->
  ge_int (quotient m) k = (k * Z.of_nat (length m) <=? Np.sum m).
Proof.
  intros Hm [_ Hl] Hk. destruct m as [| x m]; [congruence |].
  pose proof (length_pos_Z x m) as Hp. unfold quotient.
  replace (Pos.of_nat (length (x :: m))) with (Z.to_pos (Z.of_nat (length (x :: m)))).
  - apply ge_int_round; lia.
  - cbn [length]. rewrite <- Pos.of_nat_succ. reflexivity.
Qed.

Lemma ge_int_float_of_Z (k j : Z) : ge_int (float_of_Z k) j = (j <=? k).
Proof.
  unfold ge_int, float_of_Z. apply eq_true_iff_eq.
  rewrite Qle_bool_iff, Z.leb_le. cbn [this Q2Qc].
  rewrite Qred_correct, <- Zle_Qle. reflexivity.
Qed.

Lemma Student_get_grade_moderate (s : Student) :
  _marks s <> [] -> moderate (_marks s) ->
  Student_get_grade s =
  Ok (if 90 * Z.of_nat (length (_marks s)) <=? Np.sum (_marks s) then "A"
      else if 75 * Z.of_nat (length (_marks s)) <=? Np.sum (_marks s) then "B"
      else if 50 * Z.of_nat (length (_marks s)) <=? Np.sum (_marks s) then "C"
      else "F").
Proof.
  intros Hm Hmod. unfold Student_get_grade.
  rewrite (mean_moderate _ Hm Hmod). unfold mbind, outcome_bind.
  rewrite !(ge_int_quotient _ _ Hm Hmod) by lia. reflexivity.
Qed.

Lemma GraduateStudent_get_grade_moderate (s : Student) :
  _marks s <> [] -> moderate (_marks s) ->
  GraduateStudent_get_grade s =
  Ok (if 40 * Z.of_nat (length (_marks s)) <=? Np.sum (_marks s) then "Pass"
      else "Fail").
Proof.
  intros Hm Hmod. unfold GraduateStudent_get_grade.
  rewrite (mean_moderate _ Hm Hmod). unfold mbind, outcome_bind.
  rewrite !(ge_int_quotient _ _ Hm Hmod) by lia. reflexivity.
Qed.

(** Whatever the marks, a grade that is returned is a label of the policy. *)
Lemma get_grade_labels (s : Student) (g : string) :
  get_grade s = Ok g ->
  match class_of s with
  | Student_class => g = "A" \/ g = "B" \/ g = "C" \/ g = "F"
  | GraduateStudent_class => g = "Pass" \/ g = "Fail"
  end.
Proof.
  unfold get_grade, Student_get_grade, GraduateStudent_get_grade.
  destruct (class_of s); destruct (Np.mean (_marks s)) as [avg | |];
    unfold mbind, outcome_bind; intros E; try discriminate;
    injection E as <-;
    repeat match goal with |- context [ge_int ?a ?k] => destruct (ge_int a k) end;
    auto.
Qed.

(** ** Grading policies *)

Section Grades.

Variables (n r : pyobj) (m : list Z).

Let total := Np.sum m.
Let count := Z.of_nat (length m).

(** C1, amended.  For a non-empty sequence of moderate integer marks the
    standard policy returns exactly one of A, B, C, F: A when the mean is at
    least 90, else B when it is at least 75, else C when it is at least 50,
    else F; the bounds are inclusive and tried highest first, so the means
    90, 89, 75, 74, 50, 49 give A, B, B, C, C, F. *)
Theorem standard_policy_thresholds :
  m <> [] -> moderate m ->
  exists g,
    get_grade (mkStudent Student_class n r m) = Ok g /\
    (g = "A" <-> 90 * count <= total) /\
    (g = "B" <-> 75 * count <= total < 90 * count) /\
    (g = "C" <-> 50 * count <= total < 75 * count) /\
    (g = "F" <-> total < 50 * count) /\
    (Np.mean m = Ok (float_of_Z 90) -> g = "A") /\
    (Np.mean m = Ok (float_of_Z 89) -> g = "B") /\
    (Np.mean m = Ok (float_of_Z 75) -> g = "B") /\
    (Np.mean m = Ok (float_of_Z 74) -> g = "C") /\
    (Np.mean m = Ok (float_of_Z 50) -> g = "C") /\
    (Np.mean m = Ok (float_of_Z 49) -> g = "F").
Proof.
  intros Hm Hmod.
  pose proof (Student_get_grade_moderate (mkStudent Student_class n r m) Hm Hmod) as Hg.
  cbn [_marks] in Hg. fold total count in Hg.
  eexists. split; [exact Hg |].
  assert (Hb : forall k, Np.mean m = Ok (float_of_Z k) ->
               (if 90 * count <=? total then "A" else if 75 * count <=? total then "B"
                else if 50 * count <=? total then "C" else "F")
               = if 90 <=? k then "A" else if 75 <=? k then "B"
                 else if 50 <=? k then "C" else "F").
  { intros k E. unfold get_grade, Student_get_grade in Hg.
    cbn [class_of _marks] in Hg. rewrite E in Hg.
    unfold mbind, outcome_bind in Hg. rewrite !ge_int_float_of_Z in Hg.
    injection Hg as Hg. symmetry. exact Hg. }
  repeat match goal with |- _ /\ _ => split end;
    try (intros E; exact (Hb _ E));
    repeat match goal with
           | |- context [?a <=? ?b] => destruct (Z.leb_spec a b)
           end;
    split; intros; try discriminate; try reflexivity; lia.
Qed.

(** C2, amended.  For a non-empty sequence of moderate integer marks the
    graduate policy returns Pass when the mean is at least 40 and Fail
    otherwise; a mean of exactly 40 passes and a mean of 39 fails. *)
Theorem graduate_policy_threshold :
  m <> [] -> moderate m ->
  exists g,
    get_grade (mkStudent GraduateStudent_class n r m) = Ok g /\
    (g = "Pass" <-> 40 * count <= total) /\
    (g = "Fail" <-> total < 40 * count) /\
    (Np.mean m = Ok (float_of_Z 40) -> g = "Pass") /\
    (Np.mean m = Ok (float_of_Z 39) -> g = "Fail").
Proof.
  intros Hm Hmod.
  pose proof (GraduateStudent_get_grade_moderate
                (mkStudent GraduateStudent_class n r m) Hm Hmod) as Hg.
  cbn [_marks] in Hg. fold total count in Hg.
  eexists. split; [exact Hg |].
  assert (Hb : forall k, Np.mean m = Ok (float_of_Z k) ->
               (if 40 * count <=? total then "Pass" else "Fail")
               = if 40 <=? k then "Pass" else "Fail").
  { intros k E. unfold get_grade, GraduateStudent_get_grade in Hg.
    cbn [class_of _marks] in Hg. rewrite E in Hg.
    unfold mbind, outcome_bind in Hg. rewrite !ge_int_float_of_Z in Hg.
    injection Hg as Hg. symmetry. exact Hg. }
  repeat match goal with |- _ /\ _ => split end;
    try (intros E; exact (Hb _ E));
    destruct (Z.leb_spec (40 * count) total);
    split; intros; try discriminate; try reflexivity; lia.
Qed.

(** C10. With an empty marks sequence the mean is NaN, every threshold
    comparison is false, and [get_grade] still returns: F under the standard
    policy and Fail under the graduate policy. *)
Theorem empty_marks_grade :
  Np.mean [] = Ok NaN /\
  (forall k, ge_int NaN k = false) /\
  get_grade (mkStudent Student_class n r []) = Ok "F" /\
  get_grade (mkStudent GraduateStudent_class n r []) = Ok "Fail".
Proof. repeat split. Qed.

End Grades.

Lemma standard_policy_thresholds_witness :
  get_grade (mkStudent Student_class (PStr "Asha") (PStr "R1") [90; 88]) = Ok "B".
Proof.
  destruct (standard_policy_thresholds (PStr "Asha") (PStr "R1") [90; 88])
    as (g & Hg & _ & HB & _).
  - discriminate.
  - split; cbn; lia.
  - rewrite Hg. f_equal. apply HB. unfold Np.sum; simpl; lia.
Defined.

(** C1, as stated, fails: the mean of a mark of 401 digits overflows, and
    the standard policy returns no label. *)
Lemma huge_mark_has_no_standard_grade :
  [10 ^ 400] <> [] /\
  get_grade (mkStudent Student_class (PStr "Asha") (PStr "R1") [10 ^ 400])
  = Raise OverflowError.
Proof. split; [discriminate | vm_compute; reflexivity]. Qed.

Lemma graduate_policy_threshold_witness :
  get_grade (mkStudent GraduateStudent_class (PStr "Ben") (PStr "R2") [40; 38; 42])
  = Ok "Pass".
Proof.
  destruct (graduate_policy_threshold (PStr "Ben") (PStr "R2") [40; 38; 42])
    as (g & Hg & HP & _).
  - discriminate.
  - split; cbn; lia.
  - rewrite Hg. f_equal. apply HP. unfold Np.sum; simpl; lia.
Defined.

(** C2, as stated, fails: the graduate policy returns neither Pass nor Fail
    for a mark of 401 digits. *)
Lemma huge_mark_has_no_graduate_grade :
  [10 ^ 400] <> [] /\
  get_grade (mkStudent GraduateStudent_class (PStr "Ben") (PStr "R2") [10 ^ 400])
  = Raise OverflowError.
Proof. split; [discriminate | vm_compute; reflexivity]. Qed.

(** ** Tables built column by column *)





Lemma comprehension_Forall2 {A B} (f : A -> outcome B) (l : list A) (bs : list B) :
  comprehension f l = Ok bs <-> Forall2 (fun a b => f a = Ok b) l bs.
Proof.
  unfold comprehension. revert bs. induction l as [| a l IH]; intros bs; cbn [mapM].
  - split.
    + intros E. injection E as <-. constructor.
    + intros H. inversion H. reflexivity.
  - unfold mbind, outcome_bind, mret, outcome_ret in *. split.
    + destruct (f a) as [b | |] eqn:Ea; try discriminate.
      destruct (mapM f l) as [bs' | |] eqn:El; try discriminate.
      intros E. injection E as <-. constructor; [exact Ea | apply IH; reflexivity].
    + intros H. inversion H as [| ? b ? bs' Ea Hl]; subst.
      rewrite Ea. apply IH in Hl. rewrite Hl. reflexivity.
Qed.

Lemma comprehension_map {A B} (f : A -> outcome B) (g : A -> B) (l : list A) :
  Forall (fun a => f a = Ok (g a)) l -> comprehension f l = Ok (map g l).
Proof.
  intros H. apply comprehension_Forall2.
  induction H; cbn [map]; constructor; assumption.
Qed.

(** The grade of moderate marks is the label that the sum gives. *)
Lemma get_grade_moderate (s : Student) :
  moderate (_marks s) -> get_grade s = Ok (label_of_sum (class_of s) (_marks s)).
Proof.
  intros Hmod. unfold get_grade.
  destruct (_marks s) as [| x m] eqn:E.
  - unfold Student_get_grade, GraduateStudent_get_grade. rewrite E.
    destruct (class_of s); reflexivity.
  - assert (_marks s <> []) as Hm by congruence. rewrite <- E in Hmod.
    destruct (class_of s).
    + rewrite (Student_get_grade_moderate s Hm Hmod), E. reflexivity.
    + rewrite (GraduateStudent_get_grade_moderate s Hm Hmod), E. reflexivity.
Qed.

Lemma to_dataframe_gradable (ss : list Student) :
  gradable ss -> to_dataframe (mkStudentManager ss) = Ok (table ss).
Proof.
  intros H. unfold to_dataframe. cbn [students].
  destruct ss as [| s l]; [reflexivity |].
  rewrite (comprehension_map get_grade
             (fun s => label_of_sum (class_of s) (_marks s))).
  - unfold mbind, outcome_bind, table, tabulate, table_columns. cbn [map fst snd].
    rewrite map_map. reflexivity.
  - eapply Forall_impl; [exact H |]. intros a Ha. apply get_grade_moderate, Ha.
Qed.







(** ** Statistics *)

Lemma getitem_table_Marks (s : Student) (l : list Student) :
  Pd.getitem (table (s :: l)) "Marks"
  = Ok (map (fun s => PList (get_marks s)) (s :: l)).
Proof. reflexivity. Qed.

Lemma empty_table (ss : list Student) : Pd.empty (table ss) = true <-> ss = [].
Proof.
  destruct ss as [| s l]; cbn; split; intros H; try reflexivity; discriminate.
Qed.

Lemma magnitude_nonneg (a : list Z) : 0 <= Np.magnitude a.
Proof.
  induction a as [| x a IH]; cbn [Np.magnitude fold_right]; [lia |].
  unfold Np.magnitude in IH. lia.
Qed.

Lemma magnitude_app (a b : list Z) :
  Np.magnitude (a ++ b) = Np.magnitude a + Np.magnitude b.
Proof.
  induction a as [| x a IH]; [reflexivity |].
  unfold Np.magnitude in *. cbn [app fold_right]. rewrite IH. lia.
Qed.

Lemma moderate_app (a b : list Z) : moderate (a ++ b) -> moderate a /\ moderate b.
Proof.
  unfold moderate. rewrite magnitude_app, length_app, Nat2Z.inj_add.
  pose proof (magnitude_nonneg a). pose proof (magnitude_nonneg b). lia.
Qed.

Lemma moderate_concat (ls : list (list Z)) :
  moderate (concat ls) -> Forall moderate ls.
Proof.
  induction ls as [| l ls IH]; cbn [concat]; intros H; constructor.
  - apply (moderate_app _ _ H).
  - apply IH, (moderate_app _ _ H).
Qed.

Lemma moderate_gradable (ss : list Student) :
  moderate (concat (map get_marks ss)) -> gradable ss.
Proof.
  intros H. apply moderate_concat in H. unfold gradable.
  rewrite Forall_map in H. exact H.
Qed.

Lemma magnitude_bounds (a : list Z) (b : Z) :
  Np.magnitude a <= b -> forallb (fun x => Z.abs x <=? b) a = true.
Proof.
  revert b. induction a as [| x a IH]; intros b H; [reflexivity |].
  unfold Np.magnitude in *. cbn [fold_right forallb] in *.
  pose proof (magnitude_nonneg a) as H0. unfold Np.magnitude in H0.
  apply andb_true_intro. split; [apply Z.leb_le; lia | apply IH; lia].
Qed.

Lemma concatenate_cells_lists (ls : list (list Z)) :
  Np.concatenate_cells (map PList ls) = Ok (concat ls).
Proof.
  induction ls as [|l ls IH]; [reflexivity|].
  cbn [map Np.concatenate_cells concat]. rewrite IH. reflexivity.
Qed.

Lemma concatenate_lists (ls : list (list Z)) :
  ls <> [] -> Np.magnitude (concat ls) <= 2 ^ 53 ->
  Np.concatenate (map PList ls) = Ok (concat ls).
Proof.
  intros H Hb. destruct ls as [| l ls]; [congruence |].
  unfold Np.concatenate. cbn [map]. rewrite <- (map_cons PList l ls) at 1.
  rewrite concatenate_cells_lists. unfold mbind, outcome_bind.
  rewrite (magnitude_bounds _ _ Hb). reflexivity.
Qed.

Lemma fold_max_spec (x : Z) (a : list Z) :
  In (fold_right Z.max x a) (x :: a) /\
  Forall (fun y => y <= fold_right Z.max x a) (x :: a).
Proof.
  induction a as [|y a [Hin Hall]]; cbn [fold_right].
  - split; [left; reflexivity | constructor; [lia | constructor]].
  - split.
    + destruct (Z.max_spec y (fold_right Z.max x a)) as [[_ ->]|[_ ->]].
      * destruct Hin as [<-|Hin]; [left; reflexivity | right; right; exact Hin].
      * right; left; reflexivity.
    + inversion Hall as [|? ? Hx Ha]; subst.
      constructor; [lia|]. constructor; [lia|].
      rewrite Forall_forall in *. intros z Hz. specialize (Ha z Hz). lia.
Qed.

Lemma fold_min_spec (x : Z) (a : list Z) :
  In (fold_right Z.min x a) (x :: a) /\
  Forall (fun y => fold_right Z.min x a <= y) (x :: a).
Proof.
  induction a as [|y a [Hin Hall]]; cbn [fold_right].
  - split; [left; reflexivity | constructor; [lia | constructor]].
  - split.
    + destruct (Z.min_spec y (fold_right Z.min x a)) as [[_ ->]|[_ ->]].
      * right; left; reflexivity.
      * destruct Hin as [<-|Hin]; [left; reflexivity | right; right; exact Hin].
    + inversion Hall as [|? ? Hx Ha]; subst.
      constructor; [lia|]. constructor; [lia|].
      rewrite Forall_forall in *. intros z Hz. specialize (Ha z Hz). lia.
Qed.


Lemma quotient_80_90_70 : quotient [80; 90; 70] = float_of_Z 80.
Proof.
  unfold quotient, float_of_Z. f_equal. apply Qc_is_canon. vm_compute. reflexivity.
Qed.

Lemma analyze_table (ss : list Student) :
  concat (map get_marks ss) <> [] -> moderate (concat (map get_marks ss)) ->
  exists highest lowest,
    analyze mkPerformanceAnalyzer (table ss)
    = Ok (<["Lowest Marks" := Int lowest]>
           (<["Highest Marks" := Int highest]>
             (<["Average Marks" := Float (quotient (concat (map get_marks ss)))]> ∅))) /\
    In highest (concat (map get_marks ss)) /\
    In lowest (concat (map get_marks ss)) /\
    Forall (fun x => lowest <= x <= highest) (concat (map get_marks ss)).
Proof.
  intros Hne Hmod. destruct ss as [| s l]; [cbn in Hne; congruence |].
  unfold analyze, PerformanceAnalyzer_analyze.
  change (Pd.empty (table (s :: l))) with false. cbv iota.
  rewrite getitem_table_Marks. unfold mbind at 1, outcome_bind at 1.
  rewrite <- (map_map get_marks PList (s :: l)).
  rewrite concatenate_lists by (discriminate || apply Hmod).
  unfold mbind at 1, outcome_bind at 1.
  rewrite (mean_moderate _ Hne Hmod). unfold mbind at 1, outcome_bind at 1.
  destruct (concat (map get_marks (s :: l))) as [| x a] eqn:Ec; [congruence |].
  cbn [Np.max Np.min]. unfold mbind, outcome_bind.
  exists (fold_right Z.max x a), (fold_right Z.min x a).
  destruct (fold_max_spec x a) as [Hi Hm], (fold_min_spec x a) as [Hi' Hm'].
  repeat split; try assumption.
  rewrite Forall_forall in *. intros y Hy. split; auto.
Qed.

(** C3, amended.  On an empty table [analyze] returns a result without any
    key.  On the table of a store that holds at least one mark, the marks
    being moderate, it returns the mean of all marks of all records, taken
    as one flat sequence, as a float (the quotient of their sum by their
    number, rounded to binary64), and their greatest and least as integers.
    For the mark sequences [[80, 90]] and [[70]] these are 80.0, 90 and
    70. *)
Theorem analyze_statistics (ss : list Student) :
  let all_marks := concat (map get_marks ss) in
  (forall df, Pd.empty df = true ->
     analyze mkPerformanceAnalyzer df = Ok ∅) /\
  (ss = [] ->
     to_dataframe (mkStudentManager ss) ≫= analyze mkPerformanceAnalyzer = Ok ∅) /\
  (all_marks <> [] -> moderate all_marks ->
     exists highest lowest,
       to_dataframe (mkStudentManager ss) ≫= analyze mkPerformanceAnalyzer
       = Ok (<["Lowest Marks" := Int lowest]>
              (<["Highest Marks" := Int highest]>
                (<["Average Marks" := Float (quotient all_marks)]> ∅))) /\
       Np.mean all_marks = Ok (quotient all_marks) /\
       In highest all_marks /\ In lowest all_marks /\
       Forall (fun x => lowest <= x <= highest) all_marks) /\
  to_dataframe (mkStudentManager
     [mkStudent Student_class (PStr "Asha") (PStr "R1") [80; 90];
      mkStudent GraduateStudent_class (PStr "Ben") (PStr "R2") [70]])
    ≫= analyze mkPerformanceAnalyzer
  = Ok (<["Lowest Marks" := Int 70]>
         (<["Highest Marks" := Int 90]>
           (<["Average Marks" := Float (float_of_Z 80)]> ∅))).
Proof.
  intros all_marks.
  assert (He : forall df, Pd.empty df = true ->
                 analyze mkPerformanceAnalyzer df = Ok ∅).
  { intros df E. unfold analyze, PerformanceAnalyzer_analyze. rewrite E.
    reflexivity. }
  split; [exact He |]. split; [| split].
  - intros ->. reflexivity.
  - intros Hne Hmod. subst all_marks.
    destruct (analyze_table ss Hne Hmod) as (hi & lo & Ha & Hrest).
    exists hi, lo. rewrite (to_dataframe_gradable ss (moderate_gradable ss Hmod)).
    split; [exact Ha |]. split; [apply mean_moderate; assumption | exact Hrest].
  - rewrite <- quotient_80_90_70.
    rewrite to_dataframe_gradable by (repeat constructor; cbn; lia).
    reflexivity.
Qed.

Lemma analyze_statistics_witness :
  exists highest lowest,
    to_dataframe (mkStudentManager
       [mkStudent Student_class (PStr "Cy") (PStr "R3") [55; 65; 60]])
      ≫= analyze mkPerformanceAnalyzer
    = Ok (<["Lowest Marks" := Int lowest]>
           (<["Highest Marks" := Int highest]>
             (<["Average Marks" := Float (quotient [55; 65; 60])]> ∅))) /\
    In highest [55; 65; 60] /\ In lowest [55; 65; 60] /\
    Forall (fun x => lowest <= x <= highest) [55; 65; 60].
Proof.
  destruct (analyze_statistics
              [mkStudent Student_class (PStr "Cy") (PStr "R3") [55; 65; 60]])
    as (_ & _ & H & _).
  destruct H as (hi & lo & Ha & _ & Hrest).
  - discriminate.
  - split; cbn; lia.
  - exists hi, lo. split; [exact Ha | exact Hrest].
Defined.

(** C3 as stated fails: a record imported from a CSV row whose Marks field
    is [[]] makes the table non-empty while it holds no mark, and then
    [analyze] raises instead of returning. *)
Lemma analyze_without_marks_raises :
  let file := [["Name"; "Roll"; "Marks"]; ["Asha"; "R1"; "[]"]] in
  let after := snd (main None (mkInputs "" "" "" Normal false (Some file))) in
  students (manager after)
  = [mkStudent Student_class (PStr "Asha") (PStr "R1") []] /\
  (df ← to_dataframe (manager after); Ok (Pd.empty df)) = Ok false /\
  to_dataframe (manager after) ≫= analyze mkPerformanceAnalyzer
  = Raise ValueError.
Proof. vm_compute. repeat split. Qed.

(** ** Running the script *)

(** Unfolds the steps of a script applied to a page. *)
Ltac run_script :=
  unfold the_manager, st, call, manager_add_student;
  unfold mbind, script_bind, mret, script_ret; cbn.

(** ** The add-student form *)




(** ** The empty store *)

(** C7, amended. The table of an empty store has the columns Name, Roll,
    Marks, Grade and no row.  On it the records, analysis and visualization
    tabs each show an informational message and none raises; the save/load
    tab shows no download button and no message, and does not raise. *)
Theorem empty_store_views :
  let m := new_StudentManager in
  (exists df, to_dataframe m = Ok df /\
     Pd.columns df = ["Name"; "Roll"; "Marks"; "Grade"] /\
     Pd.rows df = [] /\
     Pd.empty df = true) /\
  (forall d, records_tab (mkPage m d)
     = (Ok tt, mkPage m (d ++ [write "### 📋 Student Records";
                               info "No records available."]))) /\
  (forall d, analysis_tab mkPerformanceAnalyzer (mkPage m d)
     = (Ok tt, mkPage m (d ++ [info "No students available for analysis."]))) /\
  (forall d, visualizations_tab (mkPage m d)
     = (Ok tt, mkPage m (d ++ [info "No students available for visualization."]))) /\
  (forall i d, uploaded i = None ->
     save_load_tab i (mkPage m d) = (Ok tt, mkPage m d)) /\
  (forall i, submit i = false -> uploaded i = None ->
     main None i
     = (Ok tt, mkPage m [write "### 📋 Student Records";
                         info "No records available.";
                         info "No students available for analysis.";
                         info "No students available for visualization."])).
Proof.
  intros m. repeat match goal with |- _ /\ _ => split end;
    try reflexivity.
  - eexists. repeat split.
  - intros d. unfold records_tab. run_script.
    rewrite <- app_assoc. reflexivity.
  - intros [? ? ? ? ? u] d E. cbn in E. subst u. reflexivity.
  - intros [? ? ? ? s u] Es Eu. cbn in Es, Eu. subst s u. reflexivity.
Qed.

Lemma empty_store_views_witness :
  main None (mkInputs "" "" "" Normal false None)
  = (Ok tt, mkPage new_StudentManager
              [write "### 📋 Student Records";
               info "No records available.";
               info "No students available for analysis.";
               info "No students available for visualization."]).
Proof.
  destruct empty_store_views as (_ & _ & _ & _ & _ & H).
  apply H; reflexivity.
Defined.

(** C7 as stated fails for the export: with an empty store the save/load
    tab draws nothing at all, so no informational message. *)
Lemma export_on_empty_store_shows_no_message :
  let p := snd (save_load_tab (mkInputs "" "" "" Normal false None)
                              (mkPage new_StudentManager [])) in
  ~ exists body, In (info body) (drawn p).
Proof. intros p [body H]. exact H. Qed.

(** ** Importing a CSV file *)

Lemma for_each_app {A} (l1 l2 : list A) (body : A -> script unit) (p : page) :
  for_each (l1 ++ l2) body p
  = match for_each l1 body p with
    | (Ok _, p') => for_each l2 body p'
    | r => r
    end.
Proof.
  revert p. induction l1 as [|x l1 IH]; intros p; [reflexivity|].
  cbn [app for_each]. unfold mbind, script_bind.
  destruct (body x p) as [[[]| |] p']; try reflexivity. apply IH.
Qed.

Lemma upload_row_imports (r : Pd.row) (s : Student) (p : page) :
  imports r s ->
  upload_row r p = (Ok tt, mkPage (add_student (manager p) s) (drawn p)).
Proof.
  intros ((text & Hm & He) & Hn & Hr & Hc).
  destruct s as [c n ro l]. cbn in He, Hn, Hr, Hc. subst c.
  unfold upload_row. run_script. rewrite Hm, He, Hn, Hr. reflexivity.
Qed.

Lemma upload_row_malformed (r : Pd.row) (e : exn) (p : page) :
  malformed r e -> upload_row r p = (Raise e, p).
Proof.
  intros (text & Hm & He). unfold upload_row. run_script.
  rewrite Hm, He. reflexivity.
Qed.

Lemma for_each_imports (rs : list Pd.row) (ss : list Student) (p : page) :
  Forall2 imports rs ss ->
  for_each rs upload_row p
  = (Ok tt, mkPage (mkStudentManager (students (manager p) ++ ss)) (drawn p)).
Proof.
  intros H. revert p. induction H as [|r s rs ss Hrs _ IH]; intros p.
  - cbn. rewrite app_nil_r. destruct p as [[m] d]. reflexivity.
  - cbn [for_each]. unfold mbind, script_bind at 1.
    rewrite (upload_row_imports r s p Hrs), IH.
    cbn. rewrite <- app_assoc. reflexivity.
Qed.

(** The save/load tab builds the table first; what follows is run on the
    table it got. *)
Lemma save_load_tab_table (i : inputs) (p : page) :
  save_load_tab i p
  = match to_dataframe (manager p) with
    | Ok df =>
        match uploaded i with
        | Some file =>
            (data ← call (Pd.read_csv file);
             for_each (Pd.iterrows data) upload_row;;
             st (success "✅ CSV loaded successfully!"))
              (mkPage (manager p) (drawn p ++ export_widgets df))
        | None => (Ok tt, mkPage (manager p) (drawn p ++ export_widgets df))
        end
    | Raise e => (Raise e, p)
    | Unmodelled => (Unmodelled, p)
    end.
Proof.
  unfold save_load_tab, the_manager, call.
  unfold mbind at 1 2, script_bind at 1 2.
  destruct (to_dataframe (manager p)) as [df | e |]; try reflexivity.
  unfold export_widgets. destruct p as [m d].
  destruct (Pd.empty df); cbn [negb];
    unfold mbind at 1, script_bind at 1, st, mret, script_ret; cbn [manager drawn];
    rewrite ?app_nil_r; destruct (uploaded i); reflexivity.
Qed.

Lemma save_load_tab_upload (i : inputs) (file : Pd.csv) (data : Pd.DataFrame)
    (df : Pd.DataFrame) (p : page) :
  uploaded i = Some file ->
  Pd.read_csv file = Ok data ->
  to_dataframe (manager p) = Ok df ->
  save_load_tab i p
  = match for_each (Pd.iterrows data) upload_row
            (mkPage (manager p) (drawn p ++ export_widgets df)) with
    | (Ok _, p') => (Ok tt, mkPage (manager p')
                              (drawn p' ++ [success "✅ CSV loaded successfully!"]))
    | r => r
    end.
Proof.
  intros Hu Hr Hdf. rewrite save_load_tab_table, Hdf, Hu.
  unfold call, st. unfold mbind, script_bind. rewrite Hr.
  match goal with
  | |- context [for_each ?l ?b ?q] => destruct (for_each l b q) as [[[]| |] p']
  end; reflexivity.
Qed.

(** C8. An upload stops at the first row whose Marks text does not
    evaluate: the exception leaves the script unhandled, no message reports
    it, the rows after it are not looked at, and the records of the rows
    before it are already in the store (the tab first builds the table of
    the store for the export, and ends there if that fails).  Such uploads
    exist: a file whose
    second row has the Marks field [[70, 60] (no closing bracket). *)
Theorem malformed_marks_abort_import :
  (forall (i : inputs) (file : Pd.csv) (data : Pd.DataFrame)
          (good : list Pd.row) (bad : Pd.row) (rest : list Pd.row)
          (before : list Student) (e : exn) (p : page),
     uploaded i = Some file ->
     Pd.read_csv file = Ok data ->
     Pd.iterrows data = good ++ bad :: rest ->
     Forall2 imports good before ->
     malformed bad e ->
     match to_dataframe (manager p) with
     | Ok df =>
         save_load_tab i p
         = (Raise e, mkPage (mkStudentManager (students (manager p) ++ before))
                            (drawn p ++ export_widgets df))
     | Raise e' => save_load_tab i p = (Raise e', p)
     | Unmodelled => fst (save_load_tab i p) = Unmodelled
     end) /\
  (let file := [["Name"; "Roll"; "Marks"];
                ["Asha"; "R1"; "[80, 90]"];
                ["Ben"; "R2"; "[70, 60"];
                ["Cy"; "R3"; "[50]"]] in
   let run := main None (mkInputs "" "" "" Normal false (Some file)) in
   fst run = Raise SyntaxError /\
   students (manager (snd run))
   = [mkStudent Student_class (PStr "Asha") (PStr "R1") [80; 90]] /\
   ~ In (success "✅ CSV loaded successfully!") (drawn (snd run))).
Proof.
  split.
  - intros i file data good bad rest before e p Hu Hr Hi Hg Hb.
    destruct (to_dataframe (manager p)) as [df | e' |] eqn:Hdf;
      [| rewrite save_load_tab_table, Hdf; reflexivity ..].
    rewrite (save_load_tab_upload i file data df p Hu Hr Hdf), Hi, for_each_app.
    rewrite (for_each_imports good before _ Hg). cbn [for_each manager drawn].
    unfold mbind, script_bind at 1.
    rewrite (upload_row_malformed bad e _ Hb). reflexivity.
  - vm_compute. repeat split. intros H.
    repeat (destruct H as [H|H]; [discriminate H|]). exact H.
Qed.

Lemma malformed_marks_abort_import_witness :
  let file := [["Name"; "Roll"; "Marks"];
               ["Asha"; "R1"; "[80, 90]"];
               ["Ben"; "R2"; "[70, 60"];
               ["Cy"; "R3"; "[50]"]] in
  let i := mkInputs "" "" "" Normal false (Some file) in
  let dee := mkStudent GraduateStudent_class (PStr "Dee") (PStr "R4") [45] in
  let p := mkPage (mkStudentManager [dee]) [] in
  save_load_tab i p
  = (Raise SyntaxError,
     mkPage (mkStudentManager
               [dee; mkStudent Student_class (PStr "Asha") (PStr "R1") [80; 90]])
            (export_widgets (table [dee]))).
Proof.
  intros file i dee p.
  destruct malformed_marks_abort_import as [H _].
  change (export_widgets (table [dee]))
    with (drawn p ++ export_widgets (table [dee])).
  change (mkStudentManager
            [dee; mkStudent Student_class (PStr "Asha") (PStr "R1") [80; 90]])
    with (mkStudentManager
            (students (manager p)
             ++ [mkStudent Student_class (PStr "Asha") (PStr "R1") [80; 90]])).
  pose proof (H i file
           [("Name", [PStr "Asha"; PStr "Ben"; PStr "Cy"]);
            ("Roll", [PStr "R1"; PStr "R2"; PStr "R3"]);
            ("Marks", [PStr "[80, 90]"; PStr "[70, 60"; PStr "[50]"])]
           [[("Name", PStr "Asha"); ("Roll", PStr "R1"); ("Marks", PStr "[80, 90]")]]
           [("Name", PStr "Ben"); ("Roll", PStr "R2"); ("Marks", PStr "[70, 60")]
           [[("Name", PStr "Cy"); ("Roll", PStr "R3"); ("Marks", PStr "[50]")]]
           [mkStudent Student_class (PStr "Asha") (PStr "R1") [80; 90]]
           SyntaxError p) as Hrun.
  unfold p in Hrun. cbn [manager] in Hrun.
  rewrite (to_dataframe_gradable [dee]) in Hrun by (repeat constructor; cbn; lia).
  apply Hrun.
  - reflexivity.
  - reflexivity.
  - reflexivity.
  - constructor; [|constructor].
    split; [exists "[80, 90]"; split; reflexivity | repeat split].
  - exists "[70, 60". split; reflexivity.
Defined.

(** ** The charts *)

(** C9, a defect of the script.  The visualization tab selects the columns
    Sub1, Sub2 and Sub3 for the line chart whatever the marks are.  For a
    store whose one record has the two marks 80 and 90 the expanded table
    has the subject columns Sub1 and Sub2 only: the selection raises
    KeyError for Sub3 after the bar chart and the pie chart are drawn, no
    line chart is drawn, and a run of the script ends there, before the
    save/load tab. *)
Theorem line_chart_needs_three_subjects :
  let m := mkStudentManager
             [mkStudent Student_class (PStr "Asha") (PStr "R1") [80; 90]] in
  let run := visualizations_tab (mkPage m []) in
  let whole := main (Some m) (mkInputs "" "" "" Normal false None) in
  (to_dataframe m ≫= expand)
  = Ok [("Name", [PStr "Asha"]); ("Roll", [PStr "R1"]); ("Grade", [PStr "B"]);
        ("Sub1", [PInt 80]); ("Sub2", [PInt 90])] /\
  fst run = Raise (KeyError ["Sub3"]) /\
  (exists index df counts,
     drawn (snd run)
     = [write "#### 📊 Bar Chart - Subject Marks"; bar_chart index df;
        write "#### 🥧 Pie Chart - Grade Distribution"; pyplot_pie counts;
        write "#### 📈 Line Chart - Average Trend"]) /\
  fst whole = Raise (KeyError ["Sub3"]) /\
  (forall w, In w (drawn (snd whole)) ->
     match w with
     | line_chart _ | download_button _ _ _ _ => False
     | _ => True
     end).
Proof.
  vm_compute. split; [reflexivity |]. split; [reflexivity |].
  split; [do 3 eexists; reflexivity |]. split; [reflexivity |].
  intros w H.
  repeat (destruct H as [<- | H]; [exact I |]). destruct H.
Qed.

(** ** Printing a list of integers and evaluating it back *)



Lemma to_int_not_nil (z : Z) :
  Z.to_int z <> Decimal.Pos Decimal.Nil /\ Z.to_int z <> Decimal.Neg Decimal.Nil.
Proof.
  destruct z as [|p|p]; cbn; split; try discriminate;
    intros [= H]; exact (DecimalPos.Unsigned.to_uint_nonnil p H).
Qed.


Lemma str_int_not_empty (z : Z) : Py.str_int z <> EmptyString.
Proof.
  intros E. destruct (to_int_not_nil z) as [Hp Hn].
  pose proof (NilZero.isi _ Hp Hn) as H. unfold Py.str_int in E.
  rewrite E in H. discriminate H.
Qed.

Lemma split_no_comma (t : string) :
  no_comma t = true -> Py.split "," t = [t].
Proof.
  induction t as [|c t IH]; [reflexivity|]. cbn.
  intros H. apply andb_prop in H as [Hc Ht].
  destruct (Ascii.eqb c ","); [discriminate|]. rewrite (IH Ht). reflexivity.
Qed.

Lemma split_at_comma (t s : string) :
  no_comma t = true ->
  Py.split "," (t +:+ String "," s) = t :: Py.split "," s.
Proof.
  induction t as [|c t IH]; [reflexivity|].
  change (String c t +:+ String "," s) with (String c (t +:+ String "," s)).
  cbn [Py.split no_comma Py.all_chars].
  intros H. apply andb_prop in H as [Hc Ht].
  destruct (Ascii.eqb c ","); [discriminate|]. rewrite (IH Ht). reflexivity.
Qed.








(** ** Export and import *)




(** *** Columns that [read_csv] keeps as text *)












(** * Further properties of the script *)

(** ** What a grade depends on *)

Lemma ge_int_mono (x : pyfloat) (k k' : Z) :
  k <= k' -> ge_int x k' = true -> ge_int x k = true.
Proof.
  intros Hk. destruct x as [q |]; [| discriminate]. unfold ge_int.
  rewrite !Qle_bool_iff. intros H.
  eapply Qle_trans; [| exact H]. rewrite <- Zle_Qle. exact Hk.
Qed.

(** X6. The graduate policy is the more lenient one: whenever the marks of
    a record earn A, B or C under the standard policy they earn Pass under
    the graduate policy, and marks that earn Fail earn F; the two policies
    raise on the same marks.  Empty marks earn F and Fail. *)
Theorem standard_pass_is_graduate_pass (s : Student) :
  (forall g, Student_get_grade s = Ok g -> g <> "F" ->
             GraduateStudent_get_grade s = Ok "Pass") /\
  (GraduateStudent_get_grade s = Ok "Fail" -> Student_get_grade s = Ok "F") /\
  (forall e, Student_get_grade s = Raise e <-> GraduateStudent_get_grade s = Raise e) /\
  (_marks s = [] ->
   Student_get_grade s = Ok "F" /\ GraduateStudent_get_grade s = Ok "Fail").
Proof.
  unfold Student_get_grade, GraduateStudent_get_grade.
  split; [| split; [| split]].
  - intros g. destruct (Np.mean (_marks s)) as [avg | e |];
      unfold mbind, outcome_bind; try discriminate.
    destruct (ge_int avg 40) eqn:E40; [reflexivity |].
    intros Hg Hne. exfalso. apply Hne. injection Hg as <-.
    destruct (ge_int avg 90) eqn:E90;
      [rewrite (ge_int_mono avg 40 90) in E40 by (lia || assumption); discriminate |].
    destruct (ge_int avg 75) eqn:E75;
      [rewrite (ge_int_mono avg 40 75) in E40 by (lia || assumption); discriminate |].
    destruct (ge_int avg 50) eqn:E50;
      [rewrite (ge_int_mono avg 40 50) in E40 by (lia || assumption); discriminate |].
    reflexivity.
  - destruct (Np.mean (_marks s)) as [avg | e |];
      unfold mbind, outcome_bind; try discriminate.
    destruct (ge_int avg 40) eqn:E40; [discriminate |]. intros _.
    destruct (ge_int avg 90) eqn:E90;
      [rewrite (ge_int_mono avg 40 90) in E40 by (lia || assumption); discriminate |].
    destruct (ge_int avg 75) eqn:E75;
      [rewrite (ge_int_mono avg 40 75) in E40 by (lia || assumption); discriminate |].
    destruct (ge_int avg 50) eqn:E50;
      [rewrite (ge_int_mono avg 40 50) in E40 by (lia || assumption); discriminate |].
    reflexivity.
  - intros e. destruct (Np.mean (_marks s)) as [avg | e' |];
      unfold mbind, outcome_bind; split; intros H; try discriminate; exact H.
  - intros ->. split; reflexivity.
Qed.

Lemma standard_pass_is_graduate_pass_witness :
  GraduateStudent_get_grade
    (mkStudent GraduateStudent_class (PStr "Ben") (PStr "R2") [50; 55]) = Ok "Pass".
Proof.
  destruct (standard_pass_is_graduate_pass
              (mkStudent GraduateStudent_class (PStr "Ben") (PStr "R2") [50; 55]))
    as (H & _).
  apply (H "C"); [vm_compute; reflexivity | discriminate].
Defined.

Lemma sum_Permutation (m m' : list Z) : m ≡ₚ m' -> Np.sum m = Np.sum m'.
Proof.
  unfold Np.sum. induction 1; cbn [fold_right]; lia.
Qed.

Lemma magnitude_Permutation (m m' : list Z) :
  m ≡ₚ m' -> Np.magnitude m = Np.magnitude m'.
Proof.
  unfold Np.magnitude. induction 1; cbn [fold_right]; lia.
Qed.

Lemma label_of_sum_eq (c : klass) (m m' : list Z) :
  Np.sum m = Np.sum m' -> length m = length m' ->
  label_of_sum c m = label_of_sum c m'.
Proof.
  intros Hs Hl. unfold label_of_sum. rewrite Hs, Hl.
  destruct m, m'; try discriminate Hl; reflexivity.
Qed.

(** X4. The grade of a record with moderate marks depends on its class and
    on its marks taken together only: two records of the same class whose
    marks are the same up to their order have the same grade, whatever
    their names and rolls. *)
Theorem grade_ignores_order (s s' : Student) :
  class_of s = class_of s' ->
  _marks s ≡ₚ _marks s' ->
  moderate (_marks s) ->
  exists g, get_grade s = Ok g /\ get_grade s' = Ok g.
Proof.
  intros Hc Hp Hm.
  assert (moderate (_marks s')) as Hm'.
  { unfold moderate in *.
    rewrite <- (magnitude_Permutation _ _ Hp), <- (Permutation_length Hp). exact Hm. }
  exists (label_of_sum (class_of s) (_marks s)).
  split; [apply get_grade_moderate, Hm |].
  rewrite (get_grade_moderate s' Hm'), <- Hc. f_equal.
  apply label_of_sum_eq;
    [symmetry; apply sum_Permutation, Hp | symmetry; apply Permutation_length, Hp].
Qed.

Lemma grade_ignores_order_witness :
  exists g,
    get_grade (mkStudent Student_class (PStr "Asha") (PStr "R1") [95; 60; 85]) = Ok g /\
    get_grade (mkStudent Student_class (PStr "Ben") (PStr "R2") [60; 85; 95]) = Ok g.
Proof.
  apply grade_ignores_order; [reflexivity | | split; cbn; lia].
  cbn [_marks]. apply (Permutation_trans (l' := [60; 95; 85])).
  - apply perm_swap.
  - apply perm_skip, perm_swap.
Defined.

Lemma sum_Forall2_le (m m' : list Z) :
  Forall2 Z.le m m' -> Np.sum m <= Np.sum m'.
Proof. unfold Np.sum. induction 1; cbn [fold_right]; lia. Qed.

(** X5. Raising moderate marks never lowers the grade: when two records of
    the same class have as many marks and each mark of the second is at
    least the mark of the first at the same position, the grade of the
    second is at least as good (F, C, B, A in this order, and Fail,
    Pass). *)
Theorem grade_is_monotone (s s' : Student) :
  class_of s = class_of s' ->
  Forall2 Z.le (_marks s) (_marks s') ->
  moderate (_marks s) -> moderate (_marks s') ->
  exists g g', get_grade s = Ok g /\ get_grade s' = Ok g' /\
               (rank g <= rank g')%nat.
Proof.
  intros Hc H Hm Hm'.
  exists (label_of_sum (class_of s) (_marks s)),
         (label_of_sum (class_of s') (_marks s')).
  split; [apply get_grade_moderate, Hm |].
  split; [apply get_grade_moderate, Hm' |].
  rewrite <- Hc.
  pose proof (sum_Forall2_le _ _ H) as Hs.
  pose proof (Forall2_length _ _ _ H) as Hl.
  unfold label_of_sum. rewrite <- Hl.
  destruct (_marks s) as [| x m], (_marks s') as [| x' m']; try discriminate Hl.
  - destruct (class_of s); reflexivity.
  - destruct (class_of s);
      repeat match goal with
             | |- context [?a <=? ?b] => destruct (Z.leb_spec a b)
             end; cbn; lia.
Qed.

Lemma grade_is_monotone_witness :
  let low := mkStudent Student_class (PStr "Asha") (PStr "R1") [70; 74] in
  let high := mkStudent Student_class (PStr "Asha") (PStr "R1") [70; 80] in
  exists g g', get_grade low = Ok g /\ get_grade high = Ok g' /\
               (rank g <= rank g')%nat.
Proof.
  intros low high. apply grade_is_monotone; [reflexivity | | |].
  - cbn [_marks]. repeat constructor; lia.
  - split; cbn; lia.
  - split; cbn; lia.
Defined.

(** ** More on the statistics *)

Lemma student_form_idle (i : inputs) (p : page) :
  submit i = false -> student_form i p = (Ok tt, p).
Proof. intros H. unfold student_form. rewrite H. reflexivity. Qed.

Lemma records_tab_shows (m : StudentManager) (df : Pd.DataFrame) (d : list widget) :
  to_dataframe m = Ok df -> Pd.empty df = false ->
  records_tab (mkPage m d)
  = (Ok tt, mkPage m (d ++ [write "### 📋 Student Records"; dataframe df])).
Proof.
  intros Hdf He. unfold records_tab, the_manager, call, st.
  unfold mbind, script_bind. cbn [manager drawn]. rewrite Hdf, He.
  cbn [manager drawn]. rewrite <- app_assoc. reflexivity.
Qed.

Lemma no_mark_gradable (ss : list Student) :
  concat (map get_marks ss) = [] -> gradable ss.
Proof.
  intros H. apply moderate_gradable. rewrite H. split; cbn; lia.
Qed.

Lemma analyze_no_mark (s : Student) (l : list Student) :
  concat (map get_marks (s :: l)) = [] ->
  analyze mkPerformanceAnalyzer (table (s :: l)) = Raise ValueError.
Proof.
  intros Hc. unfold analyze, PerformanceAnalyzer_analyze.
  change (Pd.empty (table (s :: l))) with false. cbv iota.
  rewrite getitem_table_Marks. unfold mbind at 1, outcome_bind at 1.
  rewrite <- (map_map get_marks PList (s :: l)).
  rewrite concatenate_lists by (discriminate || (rewrite Hc; cbn; lia)).
  rewrite Hc. reflexivity.
Qed.

(** X9. A store that has records but no mark at all breaks the analysis:
    the analysis tab raises ValueError and draws nothing, and a run of the
    script on such a store ends there, after the table of the records, with
    the store untouched; the charts and the save/load tab, and with it an
    upload, are not reached. *)
Theorem analysis_needs_a_mark (m : StudentManager) (i : inputs) (d : list widget) :
  students m <> [] ->
  concat (map get_marks (students m)) = [] ->
  to_dataframe m = Ok (table (students m)) /\
  analysis_tab mkPerformanceAnalyzer (mkPage m d) = (Raise ValueError, mkPage m d) /\
  (submit i = false ->
   main (Some m) i
   = (Raise ValueError,
      mkPage m [write "### 📋 Student Records"; dataframe (table (students m))])).
Proof.
  destruct m as [[|s l]]; cbn [students]; [congruence|]. intros _ Hc.
  pose proof (to_dataframe_gradable _ (no_mark_gradable _ Hc)) as Hdf.
  assert (Ha : forall d', analysis_tab mkPerformanceAnalyzer
                 (mkPage (mkStudentManager (s :: l)) d')
               = (Raise ValueError, mkPage (mkStudentManager (s :: l)) d')).
  { intros d'. unfold analysis_tab, the_manager, call, mbind, script_bind.
    cbn [manager]. rewrite Hdf.
    change (Pd.empty (table (s :: l))) with false. cbn [negb].
    rewrite (analyze_no_mark s l Hc). reflexivity. }
  split; [exact Hdf |]. split; [apply Ha |]. intros Hs.
  unfold main. cbv zeta. unfold mbind, script_bind.
  rewrite (student_form_idle i _ Hs).
  rewrite (records_tab_shows _ _ _ Hdf eq_refl), Ha. reflexivity.
Qed.

Lemma analysis_needs_a_mark_witness :
  let m := mkStudentManager [mkStudent Student_class (PStr "Asha") (PStr "R1") []] in
  fst (main (Some m) (mkInputs "" "" "" Normal false None)) = Raise ValueError.
Proof.
  intros m.
  destruct (analysis_needs_a_mark m (mkInputs "" "" "" Normal false None) [])
    as (_ & _ & H); [discriminate | reflexivity |].
  rewrite H; reflexivity.
Defined.

(** ** Runs that only show *)

Lemma read_only_st (w : widget) : read_only (st w).
Proof. intros p. reflexivity. Qed.

Lemma read_only_call {A} (c : outcome A) : read_only (call c).
Proof. intros p. reflexivity. Qed.

Lemma read_only_the_manager : read_only the_manager.
Proof. intros p. reflexivity. Qed.

Lemma read_only_ret {A} (a : A) : read_only (mret a : script A).
Proof. intros p. reflexivity. Qed.

Lemma read_only_bind {A B} (c : script A) (k : A -> script B) :
  read_only c -> (forall a, read_only (k a)) -> read_only (c ≫= k).
Proof.
  intros Hc Hk p. unfold mbind, script_bind. specialize (Hc p).
  destruct (c p) as [[a|e|] q]; cbn [snd] in *; [|exact Hc..].
  rewrite Hk. exact Hc.
Qed.

Ltac read_only_steps :=
  repeat first
    [ apply read_only_st | apply read_only_call | apply read_only_the_manager
    | apply read_only_ret
    | apply read_only_bind; [|intros ?]
    | match goal with
      | |- read_only (if ?b then _ else _) => destruct b
      | |- read_only (let _ := _ in _) => cbv zeta
      end ].

Lemma read_only_records_tab : read_only records_tab.
Proof. unfold records_tab. read_only_steps. Qed.

Lemma read_only_analysis_tab : read_only (analysis_tab mkPerformanceAnalyzer).
Proof. unfold analysis_tab. read_only_steps. Qed.

Lemma read_only_visualizations_tab : read_only visualizations_tab.
Proof. unfold visualizations_tab. read_only_steps. Qed.

Lemma read_only_save_load_tab (i : inputs) :
  uploaded i = None -> read_only (save_load_tab i).
Proof. intros H. unfold save_load_tab. rewrite H. read_only_steps. Qed.

Lemma read_only_student_form (i : inputs) :
  submit i = false -> read_only (student_form i).
Proof. intros H. unfold student_form. rewrite H. apply read_only_ret. Qed.

(** X17. Showing does not change anything: the records, analysis and
    visualization tabs leave the store exactly as it is, also when they
    raise, and so does a whole run in which nothing is submitted and no file
    is uploaded. *)
Theorem showing_changes_nothing :
  read_only records_tab /\
  read_only (analysis_tab mkPerformanceAnalyzer) /\
  read_only visualizations_tab /\
  (forall (session : option StudentManager) (i : inputs),
     submit i = false ->
     uploaded i = None ->
     manager (snd (main session i)) = default new_StudentManager session).
Proof.
  split; [exact read_only_records_tab|].
  split; [exact read_only_analysis_tab|].
  split; [exact read_only_visualizations_tab|].
  intros session i Hs Hu.
  assert (H : read_only (student_form i;; records_tab;;
                         analysis_tab mkPerformanceAnalyzer;;
                         visualizations_tab;; save_load_tab i)).
  { repeat (apply read_only_bind; [|intros _]);
      auto using read_only_student_form, read_only_records_tab,
        read_only_analysis_tab, read_only_visualizations_tab,
        read_only_save_load_tab. }
  unfold main. cbv zeta. rewrite H. destruct session; reflexivity.
Qed.

Lemma showing_changes_nothing_witness :
  let m := mkStudentManager
             [mkStudent Student_class (PStr "Asha") (PStr "R1") [80; 90]] in
  let run := main (Some m) (mkInputs "Ben" "R2" "70" Normal false None) in
  fst run = Raise (KeyError ["Sub3"]) /\ manager (snd run) = m.
Proof.
  intros m run. split; [reflexivity|].
  destruct showing_changes_nothing as (_ & _ & _ & H).
  apply (H (Some m)); reflexivity.
Defined.

(** ** What the form can do *)







(** ** The store only grows *)

Lemma keeps_refl (p : page) : keeps p p.
Proof. split; reflexivity. Qed.

Lemma keeps_trans (p q r : page) : keeps p q -> keeps q r -> keeps p r.
Proof. intros [H1 H2] [H3 H4]. split; etransitivity; eassumption. Qed.

Lemma append_only_st (w : widget) : append_only (st w).
Proof. intros p _. split; [reflexivity | apply prefix_app_r; reflexivity]. Qed.

Lemma append_only_call {A} (c : outcome A) : append_only (call c).
Proof. intros p _. apply keeps_refl. Qed.

Lemma append_only_the_manager : append_only the_manager.
Proof. intros p _. apply keeps_refl. Qed.

Lemma append_only_ret {A} (a : A) : append_only (mret a : script A).
Proof. intros p _. apply keeps_refl. Qed.

Lemma append_only_add (s : Student) : append_only (manager_add_student s).
Proof. intros p _. split; [apply prefix_app_r; reflexivity | reflexivity]. Qed.

Lemma append_only_bind {A B} (c : script A) (k : A -> script B) :
  append_only c -> (forall a, append_only (k a)) -> append_only (c ≫= k).
Proof.
  intros Hc Hk p. unfold mbind, script_bind. specialize (Hc p).
  destruct (c p) as [[a|e|] q]; cbn [fst snd] in *; intros Hm;
    [| apply Hc; discriminate | congruence].
  eapply keeps_trans; [apply Hc; discriminate | apply Hk, Hm].
Qed.

Lemma append_only_try (body handler : script unit) :
  append_only body -> append_only handler -> append_only (try_except body handler).
Proof.
  intros Hb Hh p. unfold try_except. specialize (Hb p).
  destruct (body p) as [[a|e|] q]; cbn [fst snd] in *; intros Hm;
    [apply Hb; discriminate | | congruence].
  eapply keeps_trans; [apply Hb; discriminate | apply Hh, Hm].
Qed.

Lemma append_only_for_each {A} (l : list A) (body : A -> script unit) :
  (forall a, append_only (body a)) -> append_only (for_each l body).
Proof.
  intros Hb. induction l as [|a l IH]; cbn [for_each].
  - apply append_only_ret.
  - apply append_only_bind; [apply Hb | intros _; exact IH].
Qed.

Ltac append_only_steps :=
  repeat first
    [ apply append_only_st | apply append_only_call | apply append_only_add
    | apply append_only_the_manager | apply append_only_ret
    | apply append_only_bind; [|intros ?]
    | apply append_only_try
    | apply append_only_for_each; intros ?
    | match goal with
      | |- append_only (if ?b then _ else _) => destruct b
      | |- append_only (match ?x with _ => _ end) => destruct x
      | |- append_only (let _ := _ in _) => cbv zeta
      end ].

Lemma append_only_student_form (i : inputs) : append_only (student_form i).
Proof. unfold student_form. append_only_steps. Qed.

Lemma append_only_records_tab : append_only records_tab.
Proof. unfold records_tab. append_only_steps. Qed.

Lemma append_only_analysis_tab (a : PerformanceAnalyzer) :
  append_only (analysis_tab a).
Proof. unfold analysis_tab. append_only_steps. Qed.

Lemma append_only_visualizations_tab : append_only visualizations_tab.
Proof. unfold visualizations_tab. append_only_steps. Qed.

Lemma append_only_upload_row (r : Pd.row) : append_only (upload_row r).
Proof. unfold upload_row. append_only_steps. Qed.

Lemma append_only_save_load_tab (i : inputs) : append_only (save_load_tab i).
Proof.
  unfold save_load_tab. append_only_steps; apply append_only_upload_row.
Qed.
(** X3. No modelled run of the script removes, reorders or changes a
    record: whether the run ends normally or with an exception of some
    part, the records the session held before are the first records of the
    store after it, in the same order.  The same holds for each part of the
    script.  (A run is not modelled when it evaluates a Marks cell that is
    not the text of a list of integers: such an expression can do anything
    to the store.) *)
Theorem store_is_append_only :
  (forall (session : option StudentManager) (i : inputs),
     fst (main session i) <> Unmodelled ->
     students (default new_StudentManager session)
     `prefix_of` students (manager (snd (main session i)))) /\
  (forall i, append_only (student_form i)) /\
  append_only records_tab /\
  append_only (analysis_tab mkPerformanceAnalyzer) /\
  append_only visualizations_tab /\
  (forall i, append_only (save_load_tab i)).
Proof.
  split; [|split; [|split; [|split; [|split]]]];
    [| exact append_only_student_form | exact append_only_records_tab
     | exact (append_only_analysis_tab _) | exact append_only_visualizations_tab
     | exact append_only_save_load_tab].
  intros session i.
  assert (H : append_only (student_form i;; records_tab;;
                           analysis_tab mkPerformanceAnalyzer;;
                           visualizations_tab;; save_load_tab i)).
  { repeat (apply append_only_bind; [|intros _]);
      auto using append_only_student_form, append_only_records_tab,
        append_only_analysis_tab, append_only_visualizations_tab,
        append_only_save_load_tab. }
  unfold main. destruct session as [m|]; cbn [default]; intros Hm;
    match goal with
    | |- _ `prefix_of` students (manager (snd (_ ?p))) => exact (proj1 (H p Hm))
    end.
Qed.

Lemma store_is_append_only_witness :
  let m := mkStudentManager
             [mkStudent Student_class (PStr "Asha") (PStr "R1") [80; 90; 85]] in
  let file := [["Name"; "Roll"; "Marks"]; ["Ben"; "R2"; "[70, 60"]] in
  let run := main (Some m) (mkInputs "Cy" "R3" "55, 65" Graduate true (Some file)) in
  fst run = Raise SyntaxError /\
  students m `prefix_of` students (manager (snd run)).
Proof.
  intros m file run. split; [vm_compute; reflexivity |].
  destruct store_is_append_only as (H & _).
  apply (H (Some m)). vm_compute. discriminate.
Defined.

(** ** Reading the numerals that [str] prints *)

Lemma digits_of_uint_acc (d : Decimal.uint) (acc : positive) :
  Py.digits (Z.pos acc) true (NilEmpty.string_of_uint d)
  = Some (Z.pos (Pos.of_uint_acc d acc)).
Proof.
  revert acc. induction d; intros acc;
    cbn [NilEmpty.string_of_uint Py.digits Pos.of_uint_acc];
    [reflexivity|..];
    match goal with
    | |- context [Py.is_digit ?c] => change (Py.is_digit c) with true
    end; cbv iota;
    match goal with
    | |- Py.digits ?z true _ = Some (Z.pos (Pos.of_uint_acc _ ?a)) =>
        replace z with (Z.pos a)
          by (match goal with
              | |- context [Py.digit_value ?c] =>
                  let v := eval vm_compute in (Py.digit_value c) in
                  change (Py.digit_value c) with v
              end; lia)
    end; apply IHd.
Qed.

Lemma digits_of_uint (d : Decimal.uint) :
  Py.digits 0 true (NilEmpty.string_of_uint d) = Some (Z.of_N (Pos.of_uint d)).
Proof.
  induction d; cbn [NilEmpty.string_of_uint Py.digits Pos.of_uint];
    [reflexivity|..];
    match goal with
    | |- context [Py.is_digit ?c] => change (Py.is_digit c) with true
    end; cbv iota;
    [exact IHd|..];
    match goal with
    | |- Py.digits ?z true _ = Some (Z.of_N (N.pos (Pos.of_uint_acc _ ?a))) =>
        change z with (Z.pos a)
    end; apply digits_of_uint_acc.
Qed.

(** A numeral that is not empty is read the same whether or not a digit
    came before it. *)
Lemma digits_start (d : Decimal.uint) :
  d <> Decimal.Nil ->
  Py.digits 0 false (NilEmpty.string_of_uint d)
  = Py.digits 0 true (NilEmpty.string_of_uint d).
Proof. destruct d; [congruence | reflexivity..]. Qed.

Lemma digits_to_uint (p : positive) :
  Py.digits 0 false (NilZero.string_of_uint (Pos.to_uint p)) = Some (Z.pos p).
Proof.
  pose proof (DecimalPos.Unsigned.to_uint_nonnil p) as Hn.
  replace (NilZero.string_of_uint (Pos.to_uint p))
    with (NilEmpty.string_of_uint (Pos.to_uint p))
    by (destruct (Pos.to_uint p); [congruence | reflexivity..]).
  rewrite (digits_start _ Hn), digits_of_uint, DecimalPos.Unsigned.of_to.
  reflexivity.
Qed.
Lemma all_chars_app (p : ascii -> bool) (a b : string) :
  Py.all_chars p (a +:+ b) = Py.all_chars p a && Py.all_chars p b.
Proof.
  induction a as [| c a IH]; [reflexivity |].
  change (String c a +:+ b) with (String c (a +:+ b)).
  cbn [Py.all_chars]. rewrite IH, andb_assoc. reflexivity.
Qed.

Lemma all_chars_impl (p q : ascii -> bool) (s : string) :
  (forall c, p c = true -> q c = true) ->
  Py.all_chars p s = true -> Py.all_chars q s = true.
Proof.
  intros H. induction s as [| c s IH]; [reflexivity |].
  cbn [Py.all_chars]. intros Hs. apply andb_prop in Hs as [Hc Hs].
  rewrite (H c Hc), (IH Hs). reflexivity.
Qed.

Lemma numeral_char_uint (d : Decimal.uint) :
  Py.all_chars numeral_char (NilEmpty.string_of_uint d) = true.
Proof. induction d; cbn; auto. Qed.

Lemma numeral_char_str_int (z : Z) :
  Py.all_chars numeral_char (Py.str_int z) = true.
Proof.
  unfold Py.str_int.
  destruct (Z.to_int z) as [d|d]; cbn [NilZero.string_of_int];
    [|change (Py.all_chars numeral_char (NilZero.string_of_uint d) = true)];
    destruct d; try reflexivity; apply numeral_char_uint.
Qed.

Lemma numeral_char_cases (c : ascii) :
  numeral_char c = true ->
  Py.is_space c = false /\ Py.is_ascii c = true /\ Py.int_char c = true
  /\ Ascii.eqb c "," = false.
Proof.
  destruct c as [[] [] [] [] [] [] [] []]; intros H;
    try discriminate H; repeat split.
Qed.

Lemma rstrip_no_space (s : string) :
  Py.all_chars (fun c => negb (Py.is_space c)) s = true -> Py.rstrip s = s.
Proof.
  induction s as [|c s IH]; [reflexivity|].
  cbn [Py.all_chars]. intros H. apply andb_prop in H as [Hc Hs].
  cbn [Py.rstrip]. rewrite (IH Hs). apply negb_true_iff in Hc. rewrite Hc.
  destruct s; reflexivity.
Qed.

Lemma lstrip_no_space (s : string) :
  Py.all_chars (fun c => negb (Py.is_space c)) s = true -> Py.lstrip s = s.
Proof.
  destruct s as [|c s]; [reflexivity|].
  cbn [Py.all_chars Py.lstrip]. intros H.
  apply andb_prop in H as [Hc _]. apply negb_true_iff in Hc. rewrite Hc.
  reflexivity.
Qed.

Lemma lstrip_blanks (pad s : string) :
  Py.all_chars Py.is_space pad = true -> Py.lstrip (pad +:+ s) = Py.lstrip s.
Proof.
  induction pad as [|c pad IH]; [reflexivity|].
  cbn [Py.all_chars]. intros H. apply andb_prop in H as [Hc Hp].
  change (String c pad +:+ s) with (String c (pad +:+ s)).
  cbn [Py.lstrip]. rewrite Hc. apply IH, Hp.
Qed.

Lemma rstrip_all_blanks (pad : string) :
  Py.all_chars Py.is_space pad = true -> Py.rstrip pad = EmptyString.
Proof.
  induction pad as [|c pad IH]; [reflexivity|].
  cbn [Py.all_chars]. intros H. apply andb_prop in H as [Hc Hp].
  cbn [Py.rstrip]. rewrite (IH Hp), Hc. reflexivity.
Qed.

Lemma rstrip_blanks (s pad : string) :
  Py.all_chars Py.is_space pad = true -> Py.rstrip (s +:+ pad) = Py.rstrip s.
Proof.
  intros Hp. induction s as [|c s IH].
  - apply rstrip_all_blanks, Hp.
  - change (String c s +:+ pad) with (String c (s +:+ pad)).
    cbn [Py.rstrip]. rewrite IH. reflexivity.
Qed.

Lemma ascii_ends (s : string) :
  Py.all_chars Py.is_ascii s = true ->
  Py.ascii_end (Py.first_char s) && Py.ascii_end (Py.last_char s) = true.
Proof.
  intros H. apply andb_true_intro. split.
  - destruct s as [| c s]; [reflexivity |]. cbn [Py.all_chars] in H.
    apply andb_prop in H as [Hc _]. exact Hc.
  - induction s as [| c s IH]; [reflexivity |]. cbn [Py.all_chars] in H.
    apply andb_prop in H as [Hc Hs]. cbn [Py.last_char].
    destruct s; [exact Hc | apply IH, Hs].
Qed.

Lemma no_space_str_int (z : Z) :
  Py.all_chars (fun c => negb (Py.is_space c)) (Py.str_int z) = true.
Proof.
  apply (all_chars_impl numeral_char); [| apply numeral_char_str_int].
  intros c Hc. destruct (numeral_char_cases c Hc) as (-> & _). reflexivity.
Qed.

Lemma strip_numeral (t : string) (z : Z) :
  numeral_of t z -> Py.strip t = Ok (Py.str_int z).
Proof.
  intros (before & after & Hb & Ha & -> & _). unfold Py.strip.
  rewrite (lstrip_blanks _ _ Hb).
  assert (Py.lstrip (Py.str_int z +:+ after) = Py.str_int z +:+ after) as ->.
  { pose proof (no_space_str_int z) as Hn.
    destruct (Py.str_int z) as [| c n] eqn:E; [destruct (str_int_not_empty z E) |].
    cbn [Py.all_chars] in Hn. apply andb_prop in Hn as [Hc _].
    apply negb_true_iff in Hc.
    change (String c n +:+ after) with (String c (n +:+ after)).
    cbn [Py.lstrip]. rewrite Hc. reflexivity. }
  rewrite (rstrip_blanks _ _ Ha), (rstrip_no_space _ (no_space_str_int z)).
  rewrite ascii_ends; [reflexivity |].
  apply (all_chars_impl numeral_char); [| apply numeral_char_str_int].
  intros c Hc. apply (numeral_char_cases c Hc).
Qed.

(** [int] reads back what [str] prints. *)
Lemma int_str_int (z : Z) :
  (String.length (Py.str_int z) <= Py.max_str_digits)%nat ->
  Py.int (Py.str_int z) = Ok z.
Proof.
  intros Hlen. unfold Py.int.
  assert (Py.all_chars (fun c => negb (Py.is_ascii c) || Py.int_char c)
            (Py.str_int z) = true) as ->.
  { apply (all_chars_impl numeral_char); [| apply numeral_char_str_int].
    intros c Hc. destruct (numeral_char_cases c Hc) as (_ & _ & -> & _).
    apply orb_true_r. }
  assert (Py.all_chars Py.is_ascii (Py.str_int z) = true) as ->.
  { apply (all_chars_impl numeral_char); [| apply numeral_char_str_int].
    intros c Hc. apply (numeral_char_cases c Hc). }
  cbn [negb]. apply Nat.ltb_ge in Hlen. rewrite Hlen.
  rewrite (lstrip_no_space _ (no_space_str_int z)),
          (rstrip_no_space _ (no_space_str_int z)).
  destruct z as [|p|p].
  - reflexivity.
  - pose proof (digits_to_uint p) as H.
    unfold Py.str_int. cbn [Z.to_int NilZero.string_of_int].
    pose proof (DecimalPos.Unsigned.to_uint_nonnil p) as Hn.
    destruct (Pos.to_uint p); [congruence|..];
      cbn [NilZero.string_of_uint NilEmpty.string_of_uint] in *;
      rewrite H; reflexivity.
  - unfold Py.str_int. cbn [Z.to_int NilZero.string_of_int].
    rewrite digits_to_uint. reflexivity.
Qed.

Lemma token_numeral (t : string) (z : Z) :
  numeral_of t z -> Py.strip t ≫= Py.int = Ok z.
Proof.
  intros H. rewrite (strip_numeral t z H). unfold mbind, outcome_bind.
  destruct H as (_ & _ & _ & _ & _ & Hlen). apply int_str_int, Hlen.
Qed.

Lemma no_comma_numeral (t : string) (z : Z) : numeral_of t z -> no_comma t = true.
Proof.
  intros (before & after & Hb & Ha & -> & _). unfold no_comma.
  assert (Hsp : forall s, Py.all_chars Py.is_space s = true ->
                  Py.all_chars (fun c => negb (Ascii.eqb c ",")) s = true).
  { intros s. apply all_chars_impl.
    intros c Hc. destruct c as [[] [] [] [] [] [] [] []]; try discriminate Hc; reflexivity. }
  rewrite !all_chars_app, (Hsp _ Hb), (Hsp _ Ha). cbn [andb]. rewrite andb_true_r.
  apply (all_chars_impl numeral_char); [| apply numeral_char_str_int].
  intros c Hc. destruct (numeral_char_cases c Hc) as (_ & _ & _ & ->). reflexivity.
Qed.

(** ** The form accepts a list of numerals *)

Lemma split_join_comma (t : string) (ts : list string) :
  Forall (fun x => no_comma x = true) (t :: ts) ->
  Py.split "," (Py.join "," (t :: ts)) = t :: ts.
Proof.
  revert t. induction ts as [|t' ts IH]; intros t H.
  - apply split_no_comma. inversion H; assumption.
  - inversion H as [|? ? Ht Hts]; subst.
    change (Py.join "," (t :: t' :: ts))
      with (t +:+ String "," (Py.join "," (t' :: ts))).
    rewrite (split_at_comma _ _ Ht), (IH t' Hts). reflexivity.
Qed.

Lemma numerals_parse (tokens : list string) (marks : list Z) :
  Forall2 numeral_of tokens marks ->
  comprehension (fun m => Py.strip m ≫= Py.int) tokens = Ok marks.
Proof.
  intros H. apply comprehension_Forall2.
  induction H; constructor; [apply token_numeral; assumption | assumption].
Qed.

(** X1. The form accepts a list of numerals: when the marks text is one or
    more integers, each written as [str] prints it with at most 4300
    characters and with any white space around it, separated by commas,
    the form adds one record with exactly these integers as marks, in
    order, and shows the success message. *)
Theorem form_accepts_numerals (tokens : list string) (marks : list Z)
    (i : inputs) (p : page) :
  submit i = true ->
  tokens <> [] ->
  Forall2 numeral_of tokens marks ->
  marks_input i = Py.join "," tokens ->
  parsed_marks i = Ok marks /\
  student_form i p
  = (Ok tt,
     mkPage (add_student (manager p)
               (mkStudent (class_for (st_type i)) (PStr (name_input i))
                  (PStr (roll_input i)) marks))
            (drawn p ++ [sidebar_success (added_message i)])).
Proof.
  intros Hs Hne H Hin.
  assert (E : parsed_marks i = Ok marks).
  { unfold parsed_marks. rewrite Hin.
    destruct tokens as [| t ts]; [congruence |].
    rewrite split_join_comma; [apply numerals_parse, H |].
    clear -H. revert H. generalize (t :: ts). intros l H.
    induction H; constructor; [eapply no_comma_numeral; eassumption | assumption]. }
  split; [exact E |].
  unfold student_form. rewrite Hs.
  unfold try_except, call. unfold mbind at 1, script_bind at 1.
  unfold parsed_marks in E. rewrite E.
  unfold added_message, class_for. destruct (st_type i); reflexivity.
Qed.

Lemma form_accepts_numerals_witness :
  let i := mkInputs "Asha" "R1" " 80 ,90,  -5 " Normal true None in
  student_form i (mkPage new_StudentManager [])
  = (Ok tt,
     mkPage (mkStudentManager
               [mkStudent Student_class (PStr "Asha") (PStr "R1") [80; 90; -5]])
            [sidebar_success "✅ Added Asha (Normal) successfully!"]).
Proof.
  intros i.
  destruct (form_accepts_numerals [" 80 "; "90"; "  -5 "] [80; 90; -5] i
              (mkPage new_StudentManager [])) as [_ H].
  - reflexivity.
  - discriminate.
  - repeat constructor.
    + exists " ", " ". repeat split. vm_compute. lia.
    + exists "", "". repeat split. vm_compute. lia.
    + exists "  ", " ". repeat split. vm_compute. lia.
  - reflexivity.
  - rewrite H. reflexivity.
Defined.

(** ** More on the charts *)

Lemma width_marks (ss : list Student) :
  Pd.width (map (fun s => PList (get_marks s)) ss) = longest ss.
Proof.
  unfold Pd.width, longest. rewrite map_map. f_equal.
  apply map_ext. intros s. cbn. apply length_map.
Qed.

Lemma nth_to_series_marks (j : nat) (s : Student) :
  nth j (Pd.to_series (PList (get_marks s))) PNaN = subject_cell j s.
Proof.
  unfold subject_cell, get_marks. cbn [Pd.to_series].
  revert j. induction (_marks s) as [|z l IH]; intros [|j]; cbn; auto.
Qed.

Lemma longest_bounds (ss : list Student) :
  Forall (fun s => (length (_marks s) <= longest ss)%nat) ss.
Proof.
  induction ss as [|s ss IH]; constructor.
  - cbn. lia.
  - rewrite Forall_forall in *. intros x Hx. specialize (IH x Hx).
    cbn. fold (longest ss). lia.
Qed.

Lemma longest_attained (s : Student) (l : list Student) :
  Exists (fun x => length (_marks x) = longest (s :: l)) (s :: l).
Proof.
  revert s. induction l as [|y l IH]; intros s.
  - left. cbn. lia.
  - specialize (IH y).
    change (longest (s :: y :: l))
      with (Nat.max (length (_marks s)) (longest (y :: l))).
    destruct (Nat.max_spec (length (_marks s)) (longest (y :: l)))
      as [[_ ->]|[_ ->]]; [right; exact IH | left; reflexivity].
Qed.

Lemma Marks_is_no_subject (j : nat) :
  String.eqb "Marks" (subject_label j) = false.
Proof. reflexivity. Qed.

Lemma filter_subjects {A} (f : nat -> A) (js : list nat) :
  List.filter (fun col : string * A => negb (String.eqb "Marks" (fst col)))
         (map (fun j => (subject_label j, f j)) js)
  = map (fun j => (subject_label j, f j)) js.
Proof.
  induction js as [|j js IH]; [reflexivity|].
  cbn [map List.filter fst]. rewrite Marks_is_no_subject. cbn [negb].
  rewrite IH. reflexivity.
Qed.

Lemma holds_exactly_marks (ss : list Student) :
  gradable ss ->
  forallb Pd.holds_exactly (map (fun s => PList (get_marks s)) ss) = true.
Proof.
  intros H. apply forallb_forall. intros x Hx.
  apply in_map_iff in Hx as (s & <- & Hs). cbn [Pd.holds_exactly].
  unfold gradable in H. rewrite Forall_forall in H.
  apply list_elem_of_In in Hs. destruct (H s Hs) as [Hm _].
  apply magnitude_bounds, Hm.
Qed.

Lemma expand_table (s : Student) (l : list Student) :
  gradable (s :: l) ->
  expand (table (s :: l)) = Ok (expanded_table (s :: l)).
Proof.
  intros Hg. unfold expand. rewrite getitem_table_Marks.
  unfold mbind at 1, outcome_bind at 1. unfold Pd.apply_Series.
  rewrite (holds_exactly_marks _ Hg). unfold mbind, outcome_bind, Pd.rename.
  rewrite width_marks, map_map.
  set (ss := s :: l).
  unfold Pd.drop, Pd.join.
  change (table ss)
    with [("Name", map name ss); ("Roll", map roll ss);
          ("Marks", map (fun s => PList (get_marks s)) ss);
          ("Grade", map grade_cell ss)].
  cbn [Pd.has_label Pd.columns map app fst existsb String.eqb Ascii.eqb
       Bool.eqb orb].
  cbn [List.filter fst negb String.eqb Ascii.eqb Bool.eqb app].
  unfold expanded_table. cbn [app]. do 4 f_equal.
  rewrite <- (filter_subjects (fun j => map (subject_cell j) ss)).
  f_equal. apply map_ext. intros j. cbn [fst snd]. f_equal.
  rewrite map_map. apply map_ext. intros x. apply nth_to_series_marks.
Qed.

Lemma present_subject (j : nat) (ss : list Student) :
  Pd.present (map (subject_cell j) ss) = Ok (subject_marks j ss).
Proof.
  unfold subject_marks. induction ss as [|s ss IH]; [reflexivity|].
  cbn [map Pd.present]. unfold subject_cell at 1.
  change (omap (fun s => _marks s !! j) (s :: ss))
    with (match _marks s !! j with
          | Some z => z :: omap (fun s => _marks s !! j) ss
          | None => omap (fun s => _marks s !! j) ss
          end).
  destruct (_marks s !! j); rewrite IH; reflexivity.
Qed.

Lemma filter_subjects_Name {A} (f : nat -> A) (js : list nat) :
  List.filter (fun col : string * A => negb (String.eqb "Name" (fst col)))
              (map (fun j => (subject_label j, f j)) js)
  = map (fun j => (subject_label j, f j)) js.
Proof.
  induction js as [|j js IH]; [reflexivity|].
  cbn [map List.filter fst].
  change (String.eqb "Name" (subject_label j)) with false. cbn [negb].
  rewrite IH. reflexivity.
Qed.

Lemma set_index_expanded_table (ss : list Student) :
  Pd.set_index (expanded_table ss) "Name" = Ok (map name ss, bar_table ss).
Proof.
  assert (G : Pd.getitem (expanded_table ss) "Name" = Ok (map name ss))
    by reflexivity.
  assert (L : Pd.has_label (expanded_table ss) "Name" = true) by reflexivity.
  unfold Pd.set_index, Pd.drop. rewrite G, L. cbn [mbind outcome_bind].
  unfold expanded_table, bar_table.
  rewrite List.filter_app, filter_subjects_Name. reflexivity.
Qed.

(** The counts of a column of labels. *)
Lemma value_counts_spec {A} (f : A -> string) (l : list A) :
  exists counts,
    Pd.value_counts (map (fun a => PStr (f a)) l) = Ok counts /\
    forall g, default 0%nat (counts !! g)
              = length (List.filter (fun a => String.eqb (f a) g) l).
Proof.
  induction l as [|a l (counts & Hc & Hg)].
  - exists ∅. split; [reflexivity|]. intros g. rewrite lookup_empty. reflexivity.
  - eexists. cbn [map Pd.value_counts]. rewrite Hc. split; [reflexivity|].
    intros g. cbn [List.filter]. destruct (String.eqb_spec (f a) g) as [->|Hne].
    + rewrite lookup_insert_eq. cbn [default length]. rewrite Hg. reflexivity.
    + rewrite lookup_insert_ne by exact Hne. apply Hg.
Qed.

Lemma getitem_table_Grade (s : Student) (l : list Student) :
  Pd.getitem (table (s :: l)) "Grade" = Ok (map grade_cell (s :: l)).
Proof. reflexivity. Qed.

(** The visualization tab up to the selection of the three subjects. *)
Lemma visualizations_tab_charts (s : Student) (l : list Student)
    (d : list widget) (counts : gmap string nat) :
  let ss := s :: l in
  let m := mkStudentManager ss in
  gradable ss ->
  Pd.value_counts (map grade_cell ss) = Ok counts ->
  visualizations_tab (mkPage m d)
  = match Pd.select (expanded_table ss) ["Sub1"; "Sub2"; "Sub3"] with
    | Ok subjects =>
        match Pd.mean subjects with
        | Ok means =>
            (Ok tt, mkPage m (d ++ charts_drawn ss counts ++ [line_chart means]))
        | Raise e => (Raise e, mkPage m (d ++ charts_drawn ss counts))
        | Unmodelled => (Unmodelled, mkPage m (d ++ charts_drawn ss counts))
        end
    | Raise e => (Raise e, mkPage m (d ++ charts_drawn ss counts))
    | Unmodelled => (Unmodelled, mkPage m (d ++ charts_drawn ss counts))
    end.
Proof.
  intros ss m Hg Hc. unfold visualizations_tab.
  unfold the_manager, st, call, mbind, script_bind.
  cbn [manager drawn]. subst m. rewrite (to_dataframe_gradable ss Hg).
  change (Pd.empty (table ss)) with false. cbn [negb].
  subst ss. rewrite (expand_table s l Hg), set_index_expanded_table.
  rewrite getitem_table_Grade, Hc.
  unfold charts_drawn. cbn [fst snd manager drawn].
  destruct (Pd.select (expanded_table (s :: l)) ["Sub1"; "Sub2"; "Sub3"])
    as [subjects|e|]; [destruct (Pd.mean subjects)|..];
    cbn [manager drawn]; rewrite <- ?app_assoc; reflexivity.
Qed.

Lemma select_few_subjects (ss : list Student) :
  (longest ss < 3)%nat ->
  Pd.select (expanded_table ss) ["Sub1"; "Sub2"; "Sub3"]
  = Raise (KeyError (map subject_label (seq (longest ss) (3 - longest ss)))).
Proof.
  intros H. unfold expanded_table.
  destruct (longest ss) as [|[|[|w]]]; try lia; reflexivity.
Qed.

Lemma select_three_subjects (ss : list Student) :
  (3 <= longest ss)%nat ->
  Pd.select (expanded_table ss) ["Sub1"; "Sub2"; "Sub3"]
  = Ok [("Sub1", map (subject_cell 0) ss);
        ("Sub2", map (subject_cell 1) ss);
        ("Sub3", map (subject_cell 2) ss)].
Proof.
  intros H. unfold expanded_table.
  destruct (longest ss) as [|[|[|w]]]; try lia.
  reflexivity.
Qed.

(** X13. When no record of a non-empty store with moderate marks has three
    marks, the visualization tab raises a KeyError that names the missing
    ones of Sub1, Sub2, Sub3, after it has drawn the bar chart, the pie
    chart and the heading of the line chart; the store is not touched. *)
Theorem line_chart_fails_below_three (s : Student) (l : list Student)
    (d : list widget) :
  let ss := s :: l in
  gradable ss ->
  (longest ss < 3)%nat ->
  exists counts,
    visualizations_tab (mkPage (mkStudentManager ss) d)
    = (Raise (KeyError (map subject_label (seq (longest ss) (3 - longest ss)))),
       mkPage (mkStudentManager ss) (d ++ charts_drawn ss counts)).
Proof.
  intros ss Hg H.
  destruct (value_counts_spec (fun x => label_of_sum (class_of x) (_marks x)) ss)
    as (counts & Hc & _).
  exists counts. pose proof (visualizations_tab_charts s l d counts Hg Hc) as Hv.
  cbv zeta in Hv. fold ss in Hv. rewrite Hv, (select_few_subjects ss H).
  reflexivity.
Qed.

Lemma line_chart_fails_below_three_witness :
  let ss := [mkStudent Student_class (PStr "Asha") (PStr "R1") [80];
             mkStudent GraduateStudent_class (PStr "Ben") (PStr "R2") []] in
  fst (visualizations_tab (mkPage (mkStudentManager ss) []))
  = Raise (KeyError ["Sub2"; "Sub3"]).
Proof.
  intros ss.
  destruct (line_chart_fails_below_three
              (mkStudent Student_class (PStr "Asha") (PStr "R1") [80])
              [mkStudent GraduateStudent_class (PStr "Ben") (PStr "R2") []] [])
    as (counts & H).
  - repeat constructor; cbn; lia.
  - cbn. lia.
  - subst ss. rewrite H. reflexivity.
Defined.

Lemma magnitude_lookup (m : list Z) (j : nat) (z : Z) :
  m !! j = Some z -> Z.abs z <= Np.magnitude m.
Proof.
  revert j. induction m as [| x m IH]; intros [| j] H; try discriminate.
  - injection H as ->. pose proof (magnitude_nonneg m).
    unfold Np.magnitude in *. cbn [fold_right]. lia.
  - specialize (IH j H). pose proof (magnitude_nonneg m).
    unfold Np.magnitude in *. cbn [fold_right]. lia.
Qed.

Lemma subject_marks_bounds (j : nat) (ss : list Student) :
  Np.magnitude (subject_marks j ss) <= Np.magnitude (concat (map get_marks ss)) /\
  (length (subject_marks j ss) <= length (concat (map get_marks ss)))%nat.
Proof.
  unfold subject_marks. induction ss as [| s ss [IH1 IH2]]; [split; reflexivity |].
  cbn [map concat]. rewrite magnitude_app, length_app.
  change (omap (fun s => _marks s !! j) (s :: ss))
    with (match _marks s !! j with
          | Some z => z :: omap (fun s => _marks s !! j) ss
          | None => omap (fun s => _marks s !! j) ss
          end).
  pose proof (magnitude_nonneg (get_marks s)) as H0.
  destruct (_marks s !! j) as [z |] eqn:E.
  - pose proof (magnitude_lookup _ _ _ E) as Hz.
    apply lookup_lt_Some in E. unfold get_marks in *.
    change (Np.magnitude (z :: omap (fun s => _marks s !! j) ss))
      with (Z.abs z + Np.magnitude (omap (fun s => _marks s !! j) ss)).
    cbn [length]. split; lia.
  - unfold get_marks in *. cbn [length]. split; lia.
Qed.

Lemma subject_marks_present (j : nat) (ss : list Student) :
  (j < longest ss)%nat -> subject_marks j ss <> [].
Proof.
  unfold subject_marks, longest. induction ss as [| s ss IH]; cbn [map fold_right];
    [lia |].
  intros H.
  change (omap (fun s => _marks s !! j) (s :: ss))
    with (match _marks s !! j with
          | Some z => z :: omap (fun s => _marks s !! j) ss
          | None => omap (fun s => _marks s !! j) ss
          end).
  destruct (_marks s !! j) as [z |] eqn:E; [discriminate |].
  apply lookup_ge_None in E. apply IH. lia.
Qed.

Lemma subject_marks_mean (j : nat) (ss : list Student) :
  moderate (concat (map get_marks ss)) -> (j < longest ss)%nat ->
  Np.mean (subject_marks j ss) = Ok (quotient (subject_marks j ss)).
Proof.
  intros [Hm Hl] Hj. apply mean_moderate; [apply subject_marks_present, Hj |].
  destruct (subject_marks_bounds j ss) as [H1 H2]. split; lia.
Qed.

(** X19. When some record of a store has three marks or more, and all marks
    together are moderate, the visualization tab draws the bar chart, the
    pie chart and the line chart and returns.  The subject columns go up to
    the longest marks sequence.  The line chart shows three values whatever
    the lengths are: for each of the first three positions, the mean of the
    marks that the records have at that position, the records without a
    mark there left out. *)
Theorem line_chart_of_three_subjects (s : Student) (l : list Student)
    (d : list widget) :
  let ss := s :: l in
  let m := mkStudentManager ss in
  moderate (concat (map get_marks ss)) ->
  (3 <= longest ss)%nat ->
  (to_dataframe m ≫= expand) = Ok (expanded_table ss) /\
  exists counts,
    visualizations_tab (mkPage m d)
    = (Ok tt,
       mkPage m (d ++ charts_drawn ss counts
                   ++ [line_chart [("Sub1", quotient (subject_marks 0 ss));
                                   ("Sub2", quotient (subject_marks 1 ss));
                                   ("Sub3", quotient (subject_marks 2 ss))]])).
Proof.
  intros ss m Hmod H3.
  pose proof (moderate_gradable ss Hmod) as Hg.
  split.
  - subst m. rewrite (to_dataframe_gradable ss Hg). apply (expand_table s l Hg).
  - destruct (value_counts_spec (fun x => label_of_sum (class_of x) (_marks x)) ss)
      as (counts & Hc & _).
    exists counts. pose proof (visualizations_tab_charts s l d counts Hg Hc) as Hv.
    cbv zeta in Hv. fold ss m in Hv. rewrite Hv, (select_three_subjects ss H3).
    unfold Pd.mean. cbn [mapM fst snd].
    rewrite !present_subject. unfold mbind, outcome_bind, mret, outcome_ret.
    rewrite !(subject_marks_mean _ ss Hmod) by lia. reflexivity.
Qed.

Lemma line_chart_of_three_subjects_witness :
  let ss := [mkStudent Student_class (PStr "Asha") (PStr "R1") [80; 90; 85];
             mkStudent GraduateStudent_class (PStr "Ben") (PStr "R2") [70]] in
  exists counts,
    visualizations_tab (mkPage (mkStudentManager ss) [])
    = (Ok tt,
       mkPage (mkStudentManager ss)
         (charts_drawn ss counts
          ++ [line_chart [("Sub1", float_of_Z 75); ("Sub2", float_of_Z 90);
                          ("Sub3", float_of_Z 85)]])).
Proof.
  intros ss.
  destruct (line_chart_of_three_subjects
              (mkStudent Student_class (PStr "Asha") (PStr "R1") [80; 90; 85])
              [mkStudent GraduateStudent_class (PStr "Ben") (PStr "R2") [70]] [])
    as (_ & counts & H).
  - split; cbn; lia.
  - cbn. lia.
  - assert (E0 : quotient (subject_marks 0 ss) = float_of_Z 75)
      by (unfold quotient, float_of_Z; f_equal; apply Qc_is_canon; vm_compute; reflexivity).
    assert (E1 : quotient (subject_marks 1 ss) = float_of_Z 90)
      by (unfold quotient, float_of_Z; f_equal; apply Qc_is_canon; vm_compute; reflexivity).
    assert (E2 : quotient (subject_marks 2 ss) = float_of_Z 85)
      by (unfold quotient, float_of_Z; f_equal; apply Qc_is_canon; vm_compute; reflexivity).
    exists counts. unfold ss in *. rewrite H, E0, E1, E2. reflexivity.
Defined.
